(** * Trip planner: the external tools, the prompt and the PDF export

    A shallow embedding of [src/main.py]: the two tool functions
    [get_weather] and [get_flight_options], the text of the prompt handed
    to the language model, and the page layout of [create_pdf].

    Conventions.
    - A Python [str] is held as the byte sequence of its UTF-8 encoding
      (a [string]).  UTF-8 is self-synchronising, so one text occurs inside
      another exactly when its bytes occur inside the other's bytes, and
      splitting on the line feed is the same on bytes and on characters.
    - A parsed JSON document is a value of [json]; the operations the
      source applies to such values ([in], subscripting, [len], iteration,
      formatting inside an f-string) are modelled for every shape of value,
      with the exception CPython 3.11 raises where it raises one.
    - Code that talks to the network runs in the monad [M]: a computation
      reads and extends a [World] (the HTTP layer, the log of requests that
      were sent, today's date) and either returns or raises.
    - The two message texts are handed to LangChain, which takes them as
      templates: [Template] gives what it makes of their braces, and the
      run of the script ([App]) passes through it before the model is
      asked. *)

From Stdlib Require Import String Ascii ZArith List Bool Lia.
From Stdlib Require Import DecimalString.
Import ListNotations.

Local Open Scope string_scope.
Local Open Scope list_scope.
Local Open Scope Z_scope.

(* ================================================================== *)
(** ** Text *)

Module Text.

(** [cat parts] is the text of an f-string (or of a chain of [+]) whose
    successive pieces are [parts]. *)
Definition cat (parts : list string) : string := String.concat "" parts.

(** [join sep xs] is Python's [sep.join(xs)]. *)
Definition join (sep : string) (xs : list string) : string :=
  String.concat sep xs.

(** [s] occurs inside [t]. *)
Definition Substring (s t : string) : Prop :=
  exists pre post, t = (pre ++ s ++ post)%string.

Fixpoint starts_with (s t : string) : bool :=
  match s, t with
  | EmptyString, _ => true
  | String a s', String b t' => Ascii.eqb a b && starts_with s' t'
  | String _ _, EmptyString => false
  end.

(** Python's [s in t] for two strings. *)
Fixpoint contains (s t : string) : bool :=
  starts_with s t ||
  match t with
  | EmptyString => false
  | String _ t' => contains s t'
  end.

(** Python's [text.split(sep)] for a one-byte separator: the pieces
    between the occurrences of [sep]; always at least one piece. *)
Fixpoint split_on (sep : ascii) (s : string) : list string :=
  match s with
  | EmptyString => [EmptyString]
  | String c rest =>
      if Ascii.eqb c sep then EmptyString :: split_on sep rest
      else match split_on sep rest with
           | [] => [String c EmptyString]
           | piece :: pieces => String c piece :: pieces
           end
  end.

Definition newline : ascii := Ascii.ascii_of_nat 10.

(** The text ["\n"]. *)
Definition LF : string := String newline EmptyString.

(** The byte [c] occurs in [s]. *)
Fixpoint has_byte (c : ascii) (s : string) : bool :=
  match s with
  | EmptyString => false
  | String b rest => Ascii.eqb b c || has_byte c rest
  end.

(** A byte of the form 10xxxxxx continues the character begun before it. *)
Definition is_continuation (c : ascii) : bool :=
  let n := Ascii.nat_of_ascii c in
  (Nat.leb 128 n && Nat.ltb n 192)%bool.

(** The characters of a text, each as its own text.  Scans from the right:
    the first component collects continuation bytes that still wait for
    their leading byte. *)
Fixpoint chars_from_right (s : string) : string * list string :=
  match s with
  | EmptyString => (EmptyString, [])
  | String c rest =>
      let '(pending, done) := chars_from_right rest in
      if is_continuation c then (String c pending, done)
      else (EmptyString, String c pending :: done)
  end.

Definition chars (s : string) : list string :=
  let '(pending, done) := chars_from_right s in
  match pending with
  | EmptyString => done
  | _ => pending :: done
  end.

(** Decimal text of an integer, as [str(n)] prints it. *)
Definition decimal (z : Z) : string := NilZero.string_of_int (Z.to_int z).

(** [pad_zero w s]: [s] with zeros in front up to width [w] (the [%0wd]
    of a number that is not negative). *)
Definition pad_zero (w : nat) (s : string) : string :=
  (String.concat "" (List.repeat "0" (w - String.length s)) ++ s)%string.

Definition is_upper_ascii (c : ascii) : bool :=
  let n := Ascii.nat_of_ascii c in (Nat.leb 65 n && Nat.leb n 90)%bool.

Definition is_lower_ascii (c : ascii) : bool :=
  let n := Ascii.nat_of_ascii c in (Nat.leb 97 n && Nat.leb n 122)%bool.

Definition lower_ascii_char (c : ascii) : ascii :=
  if is_upper_ascii c then Ascii.ascii_of_nat (Ascii.nat_of_ascii c + 32) else c.

Definition upper_ascii_char (c : ascii) : ascii :=
  if is_lower_ascii c then Ascii.ascii_of_nat (Ascii.nat_of_ascii c - 32) else c.

Fixpoint map_bytes (f : ascii -> ascii) (s : string) : string :=
  match s with
  | EmptyString => EmptyString
  | String c rest => String (f c) (map_bytes f rest)
  end.

End Text.

(* ================================================================== *)
(** ** The part of the Python runtime the code relies on *)

(** Three built-ins depend on the Unicode character database, which is no
    part of this program: [str.upper], [str.lower] and [repr] of a string.
    They are taken as given; every result below holds for any choice. *)
Class PyText : Type := {
  str_upper : string -> string;
  str_lower : string -> string;
  str_repr : string -> string
}.

(** The built-ins restricted to ASCII letters and to texts without quotes
    or escapes; used to evaluate the definitions on concrete inputs. *)
Definition AsciiText : PyText := {|
  str_upper := Text.map_bytes Text.upper_ascii_char;
  str_lower := Text.map_bytes Text.lower_ascii_char;
  str_repr := fun s => ("'" ++ s ++ "'")%string
|}.

(** Parsed JSON, as [Response.json()] returns it.  A [float] is carried by
    its [repr] (the code only ever prints numbers); a [dict] by its items in
    insertion order, looked up by first match. *)
#[warnings="-register-all"]
Inductive json : Type :=
| JNull
| JBool (b : bool)
| JInt (z : Z)
| JFloat (repr : string)
| JStr (s : string)
| JList (items : list json)
| JDict (items : list (string * json)).

(** The exceptions that can arise; all are subclasses of [Exception].
    [RequestError] stands for whatever [requests.get] or [.json()] raises
    (connection failures, timeouts, invalid URLs, undecodable bodies); the
    text carried is [str(e)]. *)
Inductive exn : Type :=
| TypeError (msg : string)
| KeyError (msg : string)
| IndexError (msg : string)
| OverflowError (msg : string)
| RequestError (msg : string).

Definition exn_str (e : exn) : string :=
  match e with
  | TypeError m | KeyError m | IndexError m | OverflowError m | RequestError m => m
  end.

Inductive result (A : Type) : Type :=
| Ok (a : A)
| Raise (e : exn).
Arguments Ok {A} a.
Arguments Raise {A} e.

Module Py.

Import Text.

Definition type_name (v : json) : string :=
  match v with
  | JNull => "NoneType"
  | JBool _ => "bool"
  | JInt _ => "int"
  | JFloat _ => "float"
  | JStr _ => "str"
  | JList _ => "list"
  | JDict _ => "dict"
  end.

Fixpoint lookup (key : string) (items : list (string * json)) : option json :=
  match items with
  | [] => None
  | (k, v) :: rest => if String.eqb k key then Some v else lookup key rest
  end.

Definition is_str (key : string) (v : json) : bool :=
  match v with
  | JStr s => String.eqb s key
  | _ => false
  end.

(** [key in v] for a string [key]. *)
Definition contains (key : string) (v : json) : result bool :=
  match v with
  | JDict items => Ok (existsb (fun kv => String.eqb (fst kv) key) items)
  | JList items => Ok (existsb (is_str key) items)
  | JStr s => Ok (Text.contains key s)
  | _ => Raise (TypeError (cat ["argument of type '"; type_name v; "' is not iterable"]))
  end.

(** [v[key]] for a string [key]. *)
Definition getitem (v : json) (key : string) : result json :=
  match v with
  | JDict items =>
      match lookup key items with
      | Some x => Ok x
      | None => Raise (KeyError (cat ["'"; key; "'"]))
      end
  | JList _ => Raise (TypeError "list indices must be integers or slices, not str")
  | JStr _ => Raise (TypeError "string indices must be integers, not 'str'")
  | _ => Raise (TypeError (cat ["'"; type_name v; "' object is not subscriptable"]))
  end.

(** [v[i]] for an index [i] that is not negative.  The keys of a parsed
    [dict] are strings, so an integer is never among them. *)
Definition getindex (v : json) (i : nat) : result json :=
  match v with
  | JList items =>
      match nth_error items i with
      | Some x => Ok x
      | None => Raise (IndexError "list index out of range")
      end
  | JStr s =>
      match nth_error (chars s) i with
      | Some c => Ok (JStr c)
      | None => Raise (IndexError "string index out of range")
      end
  | JDict _ => Raise (KeyError (decimal (Z.of_nat i)))
  | _ => Raise (TypeError (cat ["'"; type_name v; "' object is not subscriptable"]))
  end.

(** [len(v)]. *)
Definition len (v : json) : result nat :=
  match v with
  | JList items => Ok (List.length items)
  | JStr s => Ok (List.length (chars s))
  | JDict items => Ok (List.length items)
  | _ => Raise (TypeError (cat ["object of type '"; type_name v; "' has no len()"]))
  end.

(** The values [for x in v] runs through. *)
Definition iter (v : json) : result (list json) :=
  match v with
  | JList items => Ok items
  | JStr s => Ok (map JStr (chars s))
  | JDict items => Ok (map (fun kv => JStr (fst kv)) items)
  | _ => Raise (TypeError (cat ["'"; type_name v; "' object is not iterable"]))
  end.

Section Printing.
Context {T : PyText}.

(** [repr(v)]. *)
Fixpoint repr (v : json) : string :=
  match v with
  | JNull => "None"
  | JBool true => "True"
  | JBool false => "False"
  | JInt z => decimal z
  | JFloat r => r
  | JStr s => str_repr s
  | JList items => cat ["["; join ", " (map repr items); "]"]
  | JDict items =>
      cat ["{"; join ", " (map (fun kv => cat [str_repr (fst kv); ": "; repr (snd kv)]) items); "}"]
  end.

(** [str(v)], which is what [{v}] inside an f-string inserts: a string is
    inserted as it is, anything else by its [repr]. *)
Definition str (v : json) : string :=
  match v with
  | JStr s => s
  | _ => repr v
  end.

End Printing.

End Py.

(* ================================================================== *)
(** ** Calendar dates *)

(** A [datetime.date] is held as its proleptic Gregorian ordinal (day 1 is
    0001-01-01), which is what [date.toordinal()] returns.  The conversion
    to year, month and day follows the standard library's [_ord2ymd]. *)
Module Date.

Import Text.

Definition MAXORDINAL : Z := 3652059.

Definition DAYS_IN_MONTH : list Z :=
  [-1; 31; 28; 31; 30; 31; 30; 31; 31; 30; 31; 30; 31].

Definition DAYS_BEFORE_MONTH : list Z :=
  [-1; 0; 31; 59; 90; 120; 151; 181; 212; 243; 273; 304; 334].

Definition table (t : list Z) (i : Z) : Z := nth (Z.to_nat i) t 0.

Definition ord2ymd (ordinal : Z) : Z * Z * Z :=
  let n := ordinal - 1 in
  let n400 := n / 146097 in
  let n := n mod 146097 in
  let year := n400 * 400 + 1 in
  let n100 := n / 36524 in
  let n := n mod 36524 in
  let n4 := n / 1461 in
  let n := n mod 1461 in
  let n1 := n / 365 in
  let n := n mod 365 in
  let year := year + n100 * 100 + n4 * 4 + n1 in
  if ((n1 =? 4) || (n100 =? 4))%bool then (year - 1, 12, 31)
  else
    let leapyear := ((n1 =? 3) && (negb (n4 =? 24) || (n100 =? 3)))%bool in
    let month := Z.shiftr (n + 50) 5 in
    let preceding :=
      table DAYS_BEFORE_MONTH month + (if ((2 <? month) && leapyear)%bool then 1 else 0) in
    if n <? preceding then
      let month := month - 1 in
      let preceding :=
        preceding - (table DAYS_IN_MONTH month + (if ((month =? 2) && leapyear)%bool then 1 else 0)) in
      (year, month, n - preceding + 1)
    else (year, month, n - preceding + 1).

(** [d.isoformat()]: YYYY-MM-DD. *)
Definition isoformat (ordinal : Z) : string :=
  let '(y, m, d) := ord2ymd ordinal in
  cat [pad_zero 4 (decimal y); "-"; pad_zero 2 (decimal m); "-"; pad_zero 2 (decimal d)].

(** [d + datetime.timedelta(days=k)]. *)
Definition add_days (ordinal k : Z) : result Z :=
  let o := ordinal + k in
  if ((0 <? o) && (o <=? MAXORDINAL))%bool then Ok o
  else Raise (OverflowError "date value out of range").

End Date.

(* ================================================================== *)
(** ** The outside world *)

(** A value of a query parameter: text or a number. *)
Inductive pval : Type :=
| PStr (s : string)
| PInt (z : Z).

(** What [requests.get(url, headers=..., params=...)] is called with. *)
Record Request : Type := mkRequest {
  req_url : string;
  req_headers : list (string * string);
  req_params : list (string * pval)
}.

(** The value a request carries for the query parameter [name]. *)
Fixpoint assoc {V : Type} (name : string) (items : list (string * V)) : option V :=
  match items with
  | [] => None
  | (k, v) :: rest => if String.eqb k name then Some v else assoc name rest
  end.

Definition param (name : string) (r : Request) : option pval :=
  assoc name (req_params r).

(** The world a call runs in.  [network past r] is what
    [requests.get(r).json()] does when the requests [past] went out
    before: it returns the parsed body or raises.  Nothing is assumed about
    it.  [sent] logs the requests in the order they went out; [today] is
    the date [datetime.date.today()] returns. *)
Record World : Type := mkWorld {
  network : list Request -> Request -> result json;
  sent : list Request;
  today : Z
}.

(** Computations: read and extend the world, then return or raise. *)
Definition M (A : Type) : Type := World -> result A * World.

Definition ret {A} (a : A) : M A := fun w => (Ok a, w).

Definition raise {A} (e : exn) : M A := fun w => (Raise e, w).

Definition bind {A B} (c : M A) (k : A -> M B) : M B :=
  fun w =>
    match c w with
    | (Ok a, w') => k a w'
    | (Raise e, w') => (Raise e, w')
    end.

(** A pure operation that may raise. *)
Definition lift {A} (r : result A) : M A := fun w => (r, w).

(** [try: body  except Exception as e: handler e].  Every exception of
    [exn] is an [Exception]. *)
Definition try_except {A} (body : M A) (handler : exn -> M A) : M A :=
  fun w =>
    match body w with
    | (Ok a, w') => (Ok a, w')
    | (Raise e, w') => handler e w'
    end.

Declare Scope py_scope.
Delimit Scope py_scope with py.
Notation "x <- c ;; k" := (bind c (fun x => k))
  (at level 61, c at next level, right associativity) : py_scope.
Notation "c ;;; k" := (bind c (fun _ => k))
  (at level 61, right associativity) : py_scope.
Local Open Scope py_scope.

(** [requests.get(...).json()]: the request goes out, then the world
    answers. *)
Definition requests_get_json (r : Request) : M json :=
  fun w =>
    (network w (sent w) r,
     {| network := network w; sent := sent w ++ [r]; today := today w |}).

(** [datetime.date.today()]. *)
Definition date_today : M Z := fun w => (Ok (today w), w).

(** A [for] loop that carries the list it appends to. *)
Fixpoint for_each {A S} (xs : list A) (body : A -> S -> M S) (acc : S) : M S :=
  match xs with
  | [] => ret acc
  | x :: rest => acc' <- body x acc ;; for_each rest body acc'
  end.

(** [collect f xs]: the results of [f] on the elements of [xs] in order,
    or the first exception. *)
Fixpoint collect {A B} (f : A -> result B) (xs : list A) : result (list B) :=
  match xs with
  | [] => Ok []
  | x :: rest =>
      match f x with
      | Raise e => Raise e
      | Ok y =>
          match collect f rest with
          | Raise e => Raise e
          | Ok ys => Ok (y :: ys)
          end
      end
  end.

(** One subscript of a chain such as [v["a"][0]["b"]]. *)
Inductive subscript : Type :=
| K (key : string)
| I (index : nat).

Fixpoint path (v : json) (subs : list subscript) : result json :=
  match subs with
  | [] => Ok v
  | K key :: rest =>
      match Py.getitem v key with
      | Ok x => path x rest
      | Raise e => Raise e
      end
  | I i :: rest =>
      match Py.getindex v i with
      | Ok x => path x rest
      | Raise e => Raise e
      end
  end.

(* ================================================================== *)
(** ** External tools *)

Section Tools.
Context {T : PyText}.

Import Text.

Definition weather_not_found (destination : string) : string :=
  cat ["🌍 Weather info for "; destination; " not found."].

Definition weather_error (e : exn) : string :=
  cat ["❌ Weather API error: "; exn_str e].

Definition geo_request (destination : string) : Request :=
  mkRequest
    (cat ["https://geocoding-api.open-meteo.com/v1/search?name="; destination; "&count=1"])
    [] [].

Definition weather_request (lat lon : json) : Request :=
  mkRequest
    (cat ["https://api.open-meteo.com/v1/forecast?latitude="; Py.str lat;
          "&longitude="; Py.str lon;
          "&daily=temperature_2m_max,temperature_2m_min,weathercode&forecast_days=3&timezone=auto"])
    [] [].

(** One pass of the loop over the forecast days. *)
Definition weather_day (weather_res : json) (i : nat) (temps : list string)
  : M (list string) :=
  date <- lift (path weather_res [K "daily"; K "time"; I i]) ;;
  tmax <- lift (path weather_res [K "daily"; K "temperature_2m_max"; I i]) ;;
  tmin <- lift (path weather_res [K "daily"; K "temperature_2m_min"; I i]) ;;
  ret (temps ++ [cat [Py.str date; ": "; Py.str tmin; "°C - "; Py.str tmax; "°C"]]).

(** The body of the [try] of [get_weather]. *)
Definition get_weather_try (destination : string) : M string :=
  geo_res <- requests_get_json (geo_request destination) ;;
  found <- lift (Py.contains "results" geo_res) ;;
  if negb found then ret (weather_not_found destination)
  else
    lat <- lift (path geo_res [K "results"; I 0; K "latitude"]) ;;
    lon <- lift (path geo_res [K "results"; I 0; K "longitude"]) ;;
    weather_res <- requests_get_json (weather_request lat lon) ;;
    date_today ;;;
    times <- lift (path weather_res [K "daily"; K "time"]) ;;
    n <- lift (Py.len times) ;;
    temps <- for_each (seq 0 n) (weather_day weather_res) [] ;;
    ret (join " | " temps).

Definition get_weather (destination : string) : M string :=
  try_except (get_weather_try destination) (fun e => ret (weather_error e)).

(** [not amadeus_api_key]: the key is [None] or the empty string. *)
Definition no_key (amadeus_api_key : option string) : bool :=
  match amadeus_api_key with
  | None => true
  | Some k => String.eqb k ""
  end.

Definition mock_flights (destination : string) : list string :=
  [cat ["✈️ DEL → "; str_upper destination; " : ₹4,500 (Mock)"];
   cat ["✈️ BOM → "; str_upper destination; " : ₹5,200 (Mock)"]].

Definition flight_error (e : exn) : string :=
  cat ["❌ Flight API error: "; exn_str e].

(** The text [{amadeus_api_key}] inserts when there is a key. *)
Definition key_text (amadeus_api_key : option string) : string :=
  match amadeus_api_key with
  | None => "None"
  | Some k => k
  end.

Definition destination_code (destination : string) : string :=
  if String.eqb (str_lower destination) "goa" then "GOI" else "KUU".

Definition flight_request (destination : string) (amadeus_api_key : option string)
  (date : string) : Request :=
  mkRequest
    "https://test.api.amadeus.com/v2/shopping/flight-offers"
    [("Authorization", cat ["Bearer "; key_text amadeus_api_key])]
    [("originLocationCode", PStr "DEL");
     ("destinationLocationCode", PStr (destination_code destination));
     ("departureDate", PStr date);
     ("adults", PInt 1);
     ("max", PInt 2)].

(** The text one offer is turned into (the first four lines of the loop
    over the offers). *)
Definition flight_quote (f : json) : result string :=
  match path f [K "price"; K "total"] with
  | Raise e => Raise e
  | Ok price =>
  match path f [K "itineraries"; I 0] with
  | Raise e => Raise e
  | Ok itinerary =>
  match path itinerary [K "segments"; I 0; K "departure"; K "iataCode"] with
  | Raise e => Raise e
  | Ok dep =>
  match path itinerary [K "segments"; I 0; K "arrival"; K "iataCode"] with
  | Raise e => Raise e
  | Ok arr => Ok (cat ["✈️ "; Py.str dep; " → "; Py.str arr; " : ₹"; Py.str price])
  end end end end.

(** One pass of the loop over the offers. *)
Definition flight_line (f : json) (flights : list string) : M (list string) :=
  quote <- lift (flight_quote f) ;;
  ret (flights ++ [quote]).

(** The body of the [try] of [get_flight_options]. *)
Definition get_flight_options_try (destination : string)
  (amadeus_api_key : option string) : M (list string) :=
  if no_key amadeus_api_key then ret (mock_flights destination)
  else
    now <- date_today ;;
    departure <- lift (Date.add_days now 7) ;;
    let date := Date.isoformat departure in
    res <- requests_get_json (flight_request destination amadeus_api_key date) ;;
    found <- lift (Py.contains "data" res) ;;
    if negb found then ret ["No flights found."]
    else
      data <- lift (Py.getitem res "data") ;;
      offers <- lift (Py.iter data) ;;
      for_each offers flight_line [].

Definition get_flight_options (destination : string)
  (amadeus_api_key : option string) : M (list string) :=
  try_except (get_flight_options_try destination amadeus_api_key)
    (fun e => ret [flight_error e]).

End Tools.

(* ================================================================== *)
(** ** The prompt *)

Module Prompt.

Import Text.

(** The two messages given to [ChatPromptTemplate.from_messages]. *)
Record Prompt : Type := mkPrompt {
  system_message : string;
  human_message : string
}.

(** [", ".join(interests) if interests else "general sightseeing"]. *)
Definition interests_text (interests : list string) : string :=
  match interests with
  | [] => "general sightseeing"
  | _ => join ", " interests
  end.

(** The user instruction: the f-string of the ["human"] message. *)
Definition human_text (days : Z) (destination budget : string)
  (interests : list string) (weather_info : string) (flight_info : list string)
  : string :=
  cat ["
Plan a "; decimal days; "-day trip to "; destination; ".
Budget: "; budget; ".
Traveler interests: "; interests_text interests; ".

IMPORTANT:
1. First, clearly display the WEATHER DATA provided: "; weather_info; ".
2. Then, clearly display the FLIGHT OPTIONS provided: "; join ", " flight_info; ".
3. After that, suggest a day-by-day itinerary (activities, attractions, food, culture).
Make sure weather and flight info are visible in the final answer.
"].

Definition prompt (days : Z) (destination budget : string)
  (interests : list string) (weather_info : string) (flight_info : list string)
  : Prompt :=
  mkPrompt "You are a helpful AI travel planner."
    (human_text days destination budget interests weather_info flight_info).

End Prompt.

(* ================================================================== *)
(** ** PDF export *)

(** The part of reportlab's [Canvas] that [create_pdf] uses.  The canvas
    collects the drawing operations of the page being composed;
    [showPage] closes that page and starts an empty one; [save] first
    closes the page being composed when operations are pending on it, and
    then writes the document out.  The document is kept as its pages; its
    encoding into bytes is reportlab's. *)
Module Canvas.

Inductive op : Type :=
| SetFont (psfontname : string) (size : Z)
| DrawString (x y : Z) (text : string).

Definition page : Type := list op.

Record t : Type := mk {
  pages : list page;
  code : page
}.

Definition Canvas : t := mk [] [].

Definition setFont (c : t) (psfontname : string) (size : Z) : t :=
  mk (pages c) (code c ++ [SetFont psfontname size]).

Definition drawString (c : t) (x y : Z) (text : string) : t :=
  mk (pages c) (code c ++ [DrawString x y text]).

Definition showPage (c : t) : t :=
  mk (pages c ++ [code c]) [].

Definition save (c : t) : list page :=
  match code c with
  | [] => pages c
  | _ => pages (showPage c)
  end.

End Canvas.

Module Pdf.

Import Text.

(** [reportlab.lib.pagesizes.letter], in points.  The two lengths are the
    floats 612.0 and 792.0; every coordinate [create_pdf] computes from
    them is a whole number far below 2^53, so integers carry them exactly. *)
Definition letter : Z * Z := (612, 792).

Definition height : Z := snd letter.

(** One pass of the loop over the lines: draw, move down, and start a new
    page when the cursor has left the page. *)
Definition create_pdf_line (st : Canvas.t * Z) (line : string) : Canvas.t * Z :=
  let '(pdf, y) := st in
  let pdf := Canvas.drawString pdf 50 y line in
  let y := y - 20 in
  if y <? 50 then
    (Canvas.setFont (Canvas.showPage pdf) "Helvetica" 12, height - 50)
  else (pdf, y).

(** [create_pdf(text)]: the pages of the document saved into the buffer. *)
Definition create_pdf (text : string) : list Canvas.page :=
  let pdf := Canvas.setFont Canvas.Canvas "Helvetica" 12 in
  let y := height - 50 in
  let '(pdf, _) := fold_left create_pdf_line (split_on newline text) (pdf, y) in
  Canvas.save pdf.

End Pdf.

(* ================================================================== *)
(** ** Sample worlds and documents *)

Module Sample.

(** 2026-11-03. *)
Definition a_day : Z := 739923.

(** A world in which every request gets the same outcome. *)
Definition world_where (outcome : result json) : World :=
  mkWorld (fun _ _ => outcome) [] a_day.

(** A world that answers the geocoding request with [geo] and any other
    request with [forecast]. *)
Definition weather_world (destination : string) (geo forecast : json) : World :=
  mkWorld
    (fun _ r =>
       if String.eqb (req_url r)
            (Text.cat ["https://geocoding-api.open-meteo.com/v1/search?name=";
                       destination; "&count=1"])
       then Ok geo else Ok forecast)
    [] a_day.

(** What the geocoding service answers when it knows no such place. *)
Definition geo_unknown : json := JDict [("generationtime_ms", JFloat "0.62")].

Definition geo_goa : json :=
  JDict [("results",
          JList [JDict [("id", JInt 1271157); ("name", JStr "Goa");
                        ("latitude", JFloat "15.33333");
                        ("longitude", JFloat "74.08333")]])].

Definition forecast_goa : json :=
  JDict [("daily",
          JDict [("time", JList [JStr "2026-11-03"; JStr "2026-11-04"; JStr "2026-11-05"]);
                 ("temperature_2m_max", JList [JFloat "32.1"; JFloat "31.8"; JInt 32]);
                 ("temperature_2m_min", JList [JFloat "24.0"; JFloat "23.6"; JFloat "24.2"]);
                 ("weathercode", JList [JInt 1; JInt 3; JInt 61])])].

Definition offer (dep arr price : string) : json :=
  JDict [("price", JDict [("currency", JStr "EUR"); ("total", JStr price)]);
         ("itineraries",
          JList [JDict [("segments",
                         JList [JDict [("departure", JDict [("iataCode", JStr dep)]);
                                       ("arrival", JDict [("iataCode", JStr arr)])]])]])].

Definition three_offers : list json :=
  [offer "DEL" "GOI" "61.30"; offer "DEL" "BOM" "75.02"; offer "DEL" "GOI" "88.10"].

Definition flights_found : json :=
  JDict [("meta", JDict [("count", JInt 3)]); ("data", JList three_offers)].

(** An answer with an offer list that is empty. *)
Definition flights_none : json :=
  JDict [("meta", JDict [("count", JInt 0)]); ("data", JList [])].

(** An answer that reports an error and has no offer list. *)
Definition flights_refused : json :=
  JDict [("errors", JList [JDict [("status", JInt 401); ("title", JStr "Invalid access token")]])].

End Sample.

(* ================================================================== *)
(** ** Views of the loops and of the document *)

Section LoopViews.
Context {T : PyText}.

Import Text.

(** The text of forecast day [i]: what one pass of the loop of
    [get_weather] computes before it appends. *)
Definition forecast_line (weather_res : json) (i : nat) : result string :=
  match path weather_res [K "daily"; K "time"; I i] with
  | Raise e => Raise e
  | Ok date =>
  match path weather_res [K "daily"; K "temperature_2m_max"; I i] with
  | Raise e => Raise e
  | Ok tmax =>
  match path weather_res [K "daily"; K "temperature_2m_min"; I i] with
  | Raise e => Raise e
  | Ok tmin => Ok (cat [Py.str date; ": "; Py.str tmin; "°C - "; Py.str tmax; "°C"])
  end end end.

End LoopViews.

(** What can be read off a page. *)
Module Drawn.

(** The text an operation draws, if it draws one. *)
Definition text_of (o : Canvas.op) : list string :=
  match o with
  | Canvas.DrawString _ _ text => [text]
  | Canvas.SetFont _ _ => []
  end.

(** The texts drawn on a page, top to bottom. *)
Definition texts (p : Canvas.page) : list string := flat_map text_of p.

(** The number of lines drawn on a page. *)
Definition lines_on (p : Canvas.page) : nat := length (texts p).

(** An operation as [create_pdf] issues them: the font is Helvetica 12;
    a line starts 50 points from the left edge, on one of the 35 base
    lines 742, 722, ..., 62. *)
Definition on_grid (o : Canvas.op) : bool :=
  match o with
  | Canvas.SetFont name size => (String.eqb name "Helvetica" && (size =? 12))%bool
  | Canvas.DrawString x y _ =>
      ((x =? 50) && (62 <=? y) && (y <=? 742) && ((742 - y) mod 20 =? 0))%bool
  end.

(** The page sets the font before it draws anything. *)
Definition font_first (p : Canvas.page) : bool :=
  match p with
  | Canvas.SetFont name size :: _ => (String.eqb name "Helvetica" && (size =? 12))%bool
  | _ => false
  end.

(** A page as [create_pdf] composes them, holding [k] lines. *)
Definition filled (k : nat) (p : Canvas.page) : Prop :=
  lines_on p = k /\ font_first p = true /\ forallb on_grid p = true.

(** The pages of a canvas, the one being composed last. *)
Definition sheets (c : Canvas.t) : list Canvas.page :=
  Canvas.pages c ++ [Canvas.code c].

End Drawn.

(* ================================================================== *)
(** ** The prompt as LangChain takes it *)

(** [ChatPromptTemplate.from_messages] takes each message text as a
    template in Python's format-string syntax, and [format_messages()],
    called without arguments, fills the template in.  A text in which
    every brace is doubled is a template without replacement fields: it is
    accepted, and formatting it writes one brace for each doubled brace.
    Any other text either is no format string or has a replacement field
    for which no value is given: LangChain raises.  Which exception, and
    whether already while the template is read or only when it is filled
    in, depends on the text and on the library's version and is taken as
    given. *)
Module Template.

Import Text.

Definition is_brace (c : ascii) : bool :=
  (Ascii.eqb c "{" || Ascii.eqb c "}")%bool.

(** The text a template without replacement fields stands for; [None]
    when a brace stands alone. *)
Fixpoint unescape (s : string) : option string :=
  match s with
  | EmptyString => Some EmptyString
  | String c rest =>
      if is_brace c then
        match rest with
        | String c' rest' =>
            if Ascii.eqb c c' then option_map (String c) (unescape rest') else None
        | EmptyString => None
        end
      else option_map (String c) (unescape rest)
  end.

(** No brace occurs in the text. *)
Definition brace_free (s : string) : bool :=
  (negb (has_byte "{" s) && negb (has_byte "}" s))%bool.

(** Where LangChain raises for a text it does not accept. *)
Inductive stage : Type :=
| AtFromMessages
| AtFormatMessages.

(** For a text with a brace that stands alone: where LangChain raises,
    and the [str(e)] of what it raises. *)
Class LangChain : Type := {
  rejection : string -> stage * string
}.

(** The outcome of a step of the library: a value, or an exception given
    by its [str(e)]. *)
Inductive checked (A : Type) : Type :=
| Accepted (a : A)
| Rejected (str_e : string).
Arguments Accepted {A} a.
Arguments Rejected {A} str_e.

(** A [ChatPromptTemplate]: what [format_messages()] will give. *)
Definition t : Type := checked Prompt.Prompt.

Section Messages.
Context {L : LangChain}.

(** One message text read as a template: refused at once, or kept
    together with what filling it in will give. *)
Definition read (text : string) : checked (checked string) :=
  match unescape text with
  | Some plain => Accepted (Accepted plain)
  | None =>
      match rejection text with
      | (AtFromMessages, msg) => Rejected msg
      | (AtFormatMessages, msg) => Accepted (Rejected msg)
      end
  end.

(** [ChatPromptTemplate.from_messages([("system", ...), ("human", ...)])]. *)
Definition from_messages (p : Prompt.Prompt) : checked t :=
  match read (Prompt.system_message p) with
  | Rejected msg => Rejected msg
  | Accepted system =>
  match read (Prompt.human_message p) with
  | Rejected msg => Rejected msg
  | Accepted human =>
      Accepted
        match system with
        | Rejected msg => Rejected msg
        | Accepted system_text =>
            match human with
            | Rejected msg => Rejected msg
            | Accepted human_text => Accepted (Prompt.mkPrompt system_text human_text)
            end
        end
  end end.

(** [prompt.format_messages()]. *)
Definition format_messages (template : t) : checked Prompt.Prompt := template.

End Messages.

End Template.

(* ================================================================== *)
(** ** The application *)

(** One run of the script below the widgets (lines 110 to 186).  The
    widgets hand over their values as [Inputs]; the run talks to the
    network through the tools, to the language model through the LangChain
    client, and to the page through [st.error], [st.subheader], [st.write]
    and [st.download_button].  What it does to the model and to the page is
    kept as a trace of [action]s, in order. *)
Module App.

Import Text.

Record Inputs : Type := mkInputs {
  clicked : bool;
  groq_api_key : string;
  amadeus_api_key : string;
  destination : string;
  days : Z;
  budget : string;
  interests : list string
}.

Inductive action : Type :=
| AskModel (model api_key : string) (p : Prompt.Prompt)
| StError (msg : string)
| StSubheader (text : string)
| StWrite (text : string)
| StDownloadButton (label : string) (data : list Canvas.page)
    (file_name mime : string).

(** The language model behind the LangChain client.  [chat_groq model
    api_key] is [ChatGroq(model=..., api_key=...)]: the client is built, or
    an exception is raised.  [invoke model api_key messages] is
    [llm.invoke(messages).content] on that client: the text the model
    answers with, or an exception.  Nothing is assumed about either. *)
Record Model : Type := mkModel {
  chat_groq : string -> string -> result unit;
  invoke : string -> string -> Prompt.Prompt -> result string
}.

Definition error_text (e : exn) : string := cat ["❌ Error: "; exn_str e].

Section Run.
Context {T : PyText} {L : Template.LangChain}.
Variable llm : Model.

(** The branch taken when the button was clicked and a Groq key is there:
    the value left in [itinerary_text], the trace, the world.  [AskModel]
    records the call of [llm.invoke] with the messages it is given. *)
Definition plan (i : Inputs) (w : World) : string * list action * World :=
  match get_weather (destination i) w with
  | (Raise e, w1) => (EmptyString, [StError (error_text e)], w1)
  | (Ok weather_info, w1) =>
  match get_flight_options (destination i) (Some (amadeus_api_key i)) w1 with
  | (Raise e, w2) => (EmptyString, [StError (error_text e)], w2)
  | (Ok flight_info, w2) =>
  match Template.from_messages
          (Prompt.prompt (days i) (destination i) (budget i) (interests i)
             weather_info flight_info) with
  | Template.Rejected msg => (EmptyString, [StError (cat ["❌ Error: "; msg])], w2)
  | Template.Accepted prompt =>
  let model := "llama-3.1-8b-instant"%string in
  match chat_groq llm model (groq_api_key i) with
  | Raise e => (EmptyString, [StError (error_text e)], w2)
  | Ok _ =>
  match Template.format_messages prompt with
  | Template.Rejected msg => (EmptyString, [StError (cat ["❌ Error: "; msg])], w2)
  | Template.Accepted messages =>
  match invoke llm model (groq_api_key i) messages with
  | Raise e =>
      (EmptyString,
       [AskModel model (groq_api_key i) messages; StError (error_text e)], w2)
  | Ok content =>
      (content,
       [AskModel model (groq_api_key i) messages;
        StSubheader "🗺️ Suggested Itinerary"; StWrite content],
       w2)
  end end end end end end.

(** The run: the trace and the world it leaves. *)
Definition run (i : Inputs) (w : World) : list action * World :=
  let '(itinerary_text, shown, w') :=
    if clicked i then
      if String.eqb (groq_api_key i) "" then
        (EmptyString, [StError "❌ Please enter your Groq API key in the sidebar."], w)
      else plan i w
    else (EmptyString, [], w) in
  if String.eqb itinerary_text "" then (shown, w')
  else
    (shown ++
     [StDownloadButton "📥 Download Itinerary as PDF" (Pdf.create_pdf itinerary_text)
        (cat [destination i; "_itinerary.pdf"]) "application/pdf"],
     w').

End Run.

(** The messages handed to the model in a trace. *)
Definition asked (trace : list action) : list Prompt.Prompt :=
  flat_map (fun a => match a with AskModel _ _ p => [p] | _ => [] end) trace.

(** The documents offered for download in a trace. *)
Definition offered (trace : list action) : list (list Canvas.page) :=
  flat_map (fun a => match a with StDownloadButton _ d _ _ => [d] | _ => [] end) trace.

End App.

(** Inputs and a model for sample runs. *)
Module Demo.

Definition inputs (groq amadeus : string) : App.Inputs :=
  App.mkInputs true groq amadeus "Goa" 2 "Medium" ["Nature"; "Adventure"].

(** The same trip to another destination, without an Amadeus key. *)
Definition trip (destination : string) : App.Inputs :=
  App.mkInputs true "gsk" "" destination 2 "Medium" ["Nature"; "Adventure"].

(** A forecast whose list of maxima is one short. *)
Definition forecast_short : json :=
  JDict [("daily",
          JDict [("time", JList [JStr "2026-11-03"; JStr "2026-11-04"]);
                 ("temperature_2m_max", JList [JFloat "32.1"]);
                 ("temperature_2m_min", JList [JFloat "24.0"; JFloat "23.6"])])].

(** Two offers, the second without a price. *)
Definition offers_broken : list json :=
  [Sample.offer "DEL" "GOI" "61.30";
   JDict [("itineraries", JList [])]].

Definition model_says (content : string) : App.Model :=
  App.mkModel (fun _ _ => Ok tt) (fun _ _ _ => Ok content).

Definition model_fails (msg : string) : App.Model :=
  App.mkModel (fun _ _ => Ok tt) (fun _ _ _ => Raise (RequestError msg)).

(** A library that refuses a text while it reads it. *)
Definition strict : Template.LangChain :=
  {| Template.rejection := fun _ =>
       (Template.AtFromMessages, "expected '}' before end of string"%string) |}.

End Demo.

(* ================================================================== *)
(** * Properties *)

(** ** Facts about text *)

Section TextFacts.

Import Text.

Lemma append_empty_r (s : string) : (s ++ "")%string = s.
Proof. induction s as [|c s IH]; simpl; [reflexivity | now rewrite IH]. Qed.

Lemma append_assoc (s t u : string) :
  ((s ++ t) ++ u)%string = (s ++ (t ++ u))%string.
Proof. induction s as [|c s IH]; simpl; [reflexivity | now rewrite IH]. Qed.

Lemma Substring_refl (s : string) : Substring s s.
Proof. exists EmptyString, EmptyString. simpl. now rewrite append_empty_r. Qed.

Lemma Substring_append_l (s t u : string) :
  Substring s t -> Substring s (u ++ t)%string.
Proof.
  intros (pre & post & ->). exists (u ++ pre)%string, post.
  now rewrite append_assoc.
Qed.

Lemma Substring_append_r (s t u : string) :
  Substring s t -> Substring s (t ++ u)%string.
Proof.
  intros (pre & post & ->). exists pre, (post ++ u)%string.
  now rewrite !append_assoc.
Qed.

Lemma Substring_trans (s t u : string) :
  Substring s t -> Substring t u -> Substring s u.
Proof.
  intros (p1 & q1 & ->) (p2 & q2 & ->).
  exists (p2 ++ p1)%string, (q1 ++ q2)%string.
  now rewrite !append_assoc.
Qed.

Lemma concat_cons2 (sep x y : string) (xs : list string) :
  String.concat sep (x :: y :: xs)
  = (x ++ sep ++ String.concat sep (y :: xs))%string.
Proof. reflexivity. Qed.

(** Every piece that is joined occurs in the result, whatever the
    separator. *)
Lemma Substring_concat (sep s : string) (xs : list string) :
  In s xs -> Substring s (String.concat sep xs).
Proof.
  induction xs as [|x xs IH]; [intros [] |].
  destruct xs as [|y xs].
  - intros [-> | []]. apply Substring_refl.
  - intros [-> | Hin]; rewrite concat_cons2.
    + apply Substring_append_r, Substring_refl.
    + apply Substring_append_l, Substring_append_l, IH, Hin.
Qed.

Lemma Substring_cat (s : string) (parts : list string) :
  In s parts -> Substring s (cat parts).
Proof. apply Substring_concat. Qed.

Lemma Substring_join (sep s : string) (xs : list string) :
  In s xs -> Substring s (join sep xs).
Proof. apply Substring_concat. Qed.

End TextFacts.

(** Finds a piece among the pieces of an f-string. *)
Ltac in_parts := simpl; repeat (first [left; reflexivity | right]).

(** ** The tools *)

Section ToolFacts.
Context {T : PyText}.

Import Text.

(** C1.  Whatever the destination, the key and the world (so whatever the
    HTTP layer does: fail, answer with a body that is no JSON, answer with
    JSON of any shape), [get_weather] and [get_flight_options] return and
    never raise.  When the body of the [try] returns, that is the result;
    when it raises [e], the result is the error text built from [str(e)]
    for the weather, and the list holding just that text for the
    flights. *)
Theorem tools_never_raise (destination : string) (amadeus_api_key : option string)
  (w : World) :
  (exists s, fst (get_weather destination w) = Ok s) /\
  (exists l, fst (get_flight_options destination amadeus_api_key w) = Ok l) /\
  match get_weather_try destination w with
  | (Ok s, w') => get_weather destination w = (Ok s, w')
  | (Raise e, w') =>
      get_weather destination w
      = (Ok (cat ["❌ Weather API error: "; exn_str e]), w')
  end /\
  match get_flight_options_try destination amadeus_api_key w with
  | (Ok l, w') => get_flight_options destination amadeus_api_key w = (Ok l, w')
  | (Raise e, w') =>
      get_flight_options destination amadeus_api_key w
      = (Ok [cat ["❌ Flight API error: "; exn_str e]], w')
  end.
Proof.
  unfold get_weather, get_flight_options, try_except.
  destruct (get_weather_try destination w) as [[s | e] w1];
  destruct (get_flight_options_try destination amadeus_api_key w) as [[l | e'] w2];
  simpl; repeat split; eauto.
Qed.

(** C4.  When the geocoding request is answered by a document in which
    ["results"] is not found, [get_weather] returns the text
    "🌍 Weather info for <destination> not found.", and the destination
    occurs in it as it was given. *)
Theorem weather_no_match_names_destination (destination : string) (w : World)
  (geo_res : json) :
  network w (sent w) (geo_request destination) = Ok geo_res ->
  Py.contains "results" geo_res = Ok false ->
  exists s,
    fst (get_weather destination w) = Ok s /\
    s = cat ["🌍 Weather info for "; destination; " not found."] /\
    Substring destination s.
Proof.
  intros Hnet Hmiss.
  exists (weather_not_found destination). split; [| split].
  - unfold get_weather, try_except, get_weather_try, bind, requests_get_json, lift.
    rewrite Hnet, Hmiss. reflexivity.
  - reflexivity.
  - apply Substring_cat. in_parts.
Qed.

(** C5.  Without a key, [get_flight_options] returns these two texts and
    leaves the world as it was: no request goes out, and neither the
    network nor the date is consulted.  Both texts hold the destination in
    upper case and the marker "(Mock)"; origins and prices are fixed. *)
Theorem mock_flights_without_key (destination : string) (w : World) :
  let q1 := cat ["✈️ DEL → "; str_upper destination; " : ₹4,500 (Mock)"] in
  let q2 := cat ["✈️ BOM → "; str_upper destination; " : ₹5,200 (Mock)"] in
  get_flight_options destination None w = (Ok [q1; q2], w) /\
  (forall w2, fst (get_flight_options destination None w2) = Ok [q1; q2]) /\
  Substring (str_upper destination) q1 /\ Substring "(Mock)" q1 /\
  Substring (str_upper destination) q2 /\ Substring "(Mock)" q2 /\
  Substring "DEL" q1 /\ Substring "₹4,500" q1 /\
  Substring "BOM" q2 /\ Substring "₹5,200" q2.
Proof.
  intros q1 q2.
  assert (Hlit1 : forall lit, Substring lit " : ₹4,500 (Mock)" -> Substring lit q1).
  { intros lit Hlit. apply (Substring_trans _ _ _ Hlit). apply Substring_cat. in_parts. }
  assert (Hlit2 : forall lit, Substring lit " : ₹5,200 (Mock)" -> Substring lit q2).
  { intros lit Hlit. apply (Substring_trans _ _ _ Hlit). apply Substring_cat. in_parts. }
  split; [reflexivity |]. split; [intros w2; reflexivity |].
  split; [apply Substring_cat; in_parts |].
  split; [apply Hlit1; exists " : ₹4,500 "%string, EmptyString; reflexivity |].
  split; [apply Substring_cat; in_parts |].
  split; [apply Hlit2; exists " : ₹5,200 "%string, EmptyString; reflexivity |].
  split.
  { apply Substring_trans with (t := "✈️ DEL → "%string).
    - exists "✈️ "%string, " → "%string; reflexivity.
    - apply Substring_cat; in_parts. }
  split; [apply Hlit1; exists " : "%string, " (Mock)"%string; reflexivity |].
  split.
  { apply Substring_trans with (t := "✈️ BOM → "%string).
    - exists "✈️ "%string, " → "%string; reflexivity.
    - apply Substring_cat; in_parts. }
  apply Hlit2; exists " : "%string, " (Mock)"%string; reflexivity.
Qed.


(** The loop over the offers leaves the world alone and appends one quote
    per offer, unless an offer cannot be read. *)
Lemma for_each_flight_line (offers : list json) (acc : list string) (w : World) :
  for_each offers flight_line acc w
  = (match collect flight_quote offers with
     | Ok quotes => Ok (acc ++ quotes)
     | Raise e => Raise e
     end, w).
Proof.
  revert acc. induction offers as [|f offers IH]; intros acc; simpl.
  - unfold ret. now rewrite app_nil_r.
  - unfold bind, flight_line, lift, bind. destruct (flight_quote f) as [q | e]; simpl.
    + rewrite IH. destruct (collect flight_quote offers); [| reflexivity].
      now rewrite <- app_assoc.
    + reflexivity.
Qed.

Lemma lookup_existsb (key : string) (items : list (string * json)) (v : json) :
  Py.lookup key items = Some v ->
  existsb (fun kv => String.eqb (fst kv) key) items = true.
Proof.
  induction items as [|[k x] items IH]; simpl; [discriminate |].
  destruct (String.eqb k key); simpl; auto.
Qed.

(** The world after a call made with a key: the date is read, and if the
    date seven days on exists, exactly one request goes out. *)
Lemma flights_world (destination : string) (amadeus_api_key : option string)
  (w : World) :
  no_key amadeus_api_key = false ->
  snd (get_flight_options destination amadeus_api_key w)
  = match Date.add_days (today w) 7 with
    | Ok d =>
        mkWorld (network w)
          (sent w ++ [flight_request destination amadeus_api_key (Date.isoformat d)])
          (today w)
    | Raise _ => w
    end.
Proof.
  intros Hkey.
  unfold get_flight_options, try_except, get_flight_options_try.
  rewrite Hkey. unfold bind, date_today, lift, requests_get_json, ret.
  destruct (Date.add_days (today w) 7) as [d | e]; simpl; [| reflexivity].
  destruct (network w (sent w) _) as [res | e]; simpl; [| reflexivity].
  destruct (Py.contains "data" res) as [[|] | e]; simpl; try reflexivity.
  destruct (Py.getitem res "data") as [data | e]; simpl; [| reflexivity].
  destruct (Py.iter data) as [offers | e]; simpl; [| reflexivity].
  rewrite for_each_flight_line.
  destruct (collect flight_quote offers); reflexivity.
Qed.

Lemma add_days_in_range (t : Z) :
  1 <= t <= Date.MAXORDINAL - 7 -> Date.add_days t 7 = Ok (t + 7).
Proof.
  intros Ht. unfold Date.add_days.
  replace (0 <? t + 7) with true by (symmetry; apply Z.ltb_lt; lia).
  replace (t + 7 <=? Date.MAXORDINAL) with true by (symmetry; apply Z.leb_le; lia).
  reflexivity.
Qed.

(** C9.  A key that is the empty string is treated as no key at all: the
    call returns what the call without a key returns, the two mock
    quotes, and no request goes out. *)
Theorem empty_key_is_no_key (destination : string) (w : World) :
  get_flight_options destination (Some "") w = get_flight_options destination None w /\
  fst (get_flight_options destination (Some "") w)
  = Ok [cat ["✈️ DEL → "; str_upper destination; " : ₹4,500 (Mock)"];
        cat ["✈️ BOM → "; str_upper destination; " : ₹5,200 (Mock)"]] /\
  sent (snd (get_flight_options destination (Some "") w)) = sent w.
Proof. repeat split. Qed.

(** C8.  A call made with a key sends at most one request, and exactly one
    when the date seven days on exists.  The [destinationLocationCode] of
    what it sends is "GOI" when the destination in lower case is "goa" and
    "KUU" otherwise. *)
Theorem flight_destination_code (destination : string)
  (amadeus_api_key : option string) (w : World) :
  no_key amadeus_api_key = false ->
  exists new,
    sent (snd (get_flight_options destination amadeus_api_key w)) = sent w ++ new /\
    (length new <= 1)%nat /\
    (1 <= today w <= Date.MAXORDINAL - 7 -> length new = 1%nat) /\
    Forall (fun r =>
      param "destinationLocationCode" r
      = Some (PStr (if String.eqb (str_lower destination) "goa" then "GOI" else "KUU")))
      new.
Proof.
  intros Hkey. rewrite (flights_world _ _ _ Hkey).
  destruct (Date.add_days (today w) 7) as [d | e] eqn:Hd.
  - eexists. split; [reflexivity |]. split; [simpl; lia |].
    split; [reflexivity |]. constructor; [reflexivity | constructor].
  - exists []. split; [now rewrite app_nil_r |]. split; [simpl; lia |].
    split; [| constructor].
    intros Ht. rewrite (add_days_in_range _ Ht) in Hd. discriminate.
Qed.

(** X16.  A call made with a key, on a day from which
    the date seven days on exists: when the answer to the request is a
    document in which ["data"] is not found, the result is the list holding
    just "No flights found."; when the request raises [e], the result is
    the list holding just the error text built from [str(e)]. *)
Theorem flights_sentinel_or_error (destination : string)
  (amadeus_api_key : option string) (w : World) :
  no_key amadeus_api_key = false ->
  1 <= today w <= Date.MAXORDINAL - 7 ->
  let r := flight_request destination amadeus_api_key (Date.isoformat (today w + 7)) in
  (forall res,
     network w (sent w) r = Ok res -> Py.contains "data" res = Ok false ->
     fst (get_flight_options destination amadeus_api_key w) = Ok ["No flights found."]) /\
  (forall e,
     network w (sent w) r = Raise e ->
     fst (get_flight_options destination amadeus_api_key w)
     = Ok [cat ["❌ Flight API error: "; exn_str e]]).
Proof.
  intros Hkey Ht r.
  unfold get_flight_options, try_except, get_flight_options_try.
  rewrite Hkey. unfold bind, date_today, lift, requests_get_json, ret.
  rewrite (add_days_in_range _ Ht). simpl. fold r.
  split.
  - intros res Hnet Hmiss. rewrite Hnet. simpl. rewrite Hmiss. reflexivity.
  - intros e Hnet. rewrite Hnet. reflexivity.
Qed.

(** C10.  A call made with a key, on a day from which the date seven days
    on exists: when the answer holds under ["data"] a list of offers, each
    of which has the fields a quote is made of, the result is the list of
    their quotes, as many as there are offers and in their order.  Nothing
    is cut off by the code; the request asks for [max] = 2. *)
Theorem flights_one_quote_per_offer (destination : string)
  (amadeus_api_key : option string) (w : World) (res : json) (offers : list json) :
  no_key amadeus_api_key = false ->
  1 <= today w <= Date.MAXORDINAL - 7 ->
  let r := flight_request destination amadeus_api_key (Date.isoformat (today w + 7)) in
  network w (sent w) r = Ok res ->
  Py.getitem res "data" = Ok (JList offers) ->
  Forall (fun f => exists quote, flight_quote f = Ok quote) offers ->
  exists quotes,
    fst (get_flight_options destination amadeus_api_key w) = Ok quotes /\
    length quotes = length offers /\
    Forall2 (fun f quote => flight_quote f = Ok quote) offers quotes /\
    param "max" r = Some (PInt 2).
Proof.
  intros Hkey Ht r Hnet Hdata Hall.
  assert (Hquotes : exists quotes, collect flight_quote offers = Ok quotes /\
            Forall2 (fun f quote => flight_quote f = Ok quote) offers quotes).
  { clear Hdata. induction Hall as [|f offers (q & Hq) _ (quotes & Hc & Hf)].
    - exists []. split; [reflexivity | constructor].
    - exists (q :: quotes). simpl. rewrite Hq, Hc. split; [reflexivity |].
      constructor; assumption. }
  destruct Hquotes as (quotes & Hc & Hf).
  exists quotes. split; [| split; [| split]].
  - unfold get_flight_options, try_except, get_flight_options_try.
    rewrite Hkey. unfold bind, date_today, lift, requests_get_json, ret.
    rewrite (add_days_in_range _ Ht). simpl. fold r. rewrite Hnet. simpl.
    destruct res; try discriminate Hdata. simpl in Hdata.
    destruct (Py.lookup "data" items) as [data |] eqn:Hl; [| discriminate].
    inversion Hdata; subst data. simpl.
    rewrite (lookup_existsb _ _ _ Hl). simpl. rewrite Hl. simpl.
    rewrite for_each_flight_line, Hc. reflexivity.
  - symmetry. eapply Forall2_length, Hf.
  - exact Hf.
  - reflexivity.
Qed.

End ToolFacts.

(** ** The prompt *)

Section PromptFacts.

Import Text.

(** The text assembled for the human message holds the weather text as it
    is, and each of the flight texts as it is. *)
Lemma human_text_embeds_tool_data (days : Z) (destination budget : string)
  (interests : list string) (weather_info : string) (flight_info : list string) :
  let p := Prompt.prompt days destination budget interests weather_info flight_info in
  Substring weather_info (Prompt.human_message p) /\
  Forall (fun flight => Substring flight (Prompt.human_message p)) flight_info.
Proof.
  intros p. subst p. unfold Prompt.prompt, Prompt.human_message, Prompt.human_text.
  split.
  - apply Substring_cat. in_parts.
  - apply Forall_forall. intros flight Hin.
    apply Substring_trans with (t := join ", " flight_info).
    + apply Substring_join, Hin.
    + apply Substring_cat. in_parts.
Qed.

End PromptFacts.

(** ** PDF export *)

Section PdfFacts.

Import Text.

Lemma split_on_absent (sep : ascii) (s : string) :
  has_byte sep s = false -> split_on sep s = [s].
Proof.
  induction s as [|c s IH]; simpl; [reflexivity |].
  intros H. apply orb_false_elim in H as [Hc Hs].
  rewrite Hc, (IH Hs). reflexivity.
Qed.

Lemma split_on_append (sep : ascii) (s t : string) :
  has_byte sep s = false ->
  split_on sep (s ++ String sep t) = s :: split_on sep t.
Proof.
  induction s as [|c s IH]; simpl.
  - intros _. now rewrite Ascii.eqb_refl.
  - intros H. apply orb_false_elim in H as [Hc Hs].
    rewrite Hc, (IH Hs). reflexivity.
Qed.

(** Splitting what was joined with line feeds gives the lines back. *)
Lemma split_on_join (lines : list string) :
  lines <> [] ->
  Forall (fun l => has_byte newline l = false) lines ->
  split_on newline (join LF lines) = lines.
Proof.
  induction lines as [|l lines IH]; [congruence |].
  intros _ Hall. inversion Hall as [|? ? Hl Hrest]; subst.
  destruct lines as [|l2 lines].
  - simpl. now apply split_on_absent.
  - unfold join in *. rewrite concat_cons2. unfold LF at 1. simpl append.
    rewrite (split_on_append _ _ _ Hl). f_equal.
    apply IH; [discriminate | assumption].
Qed.

Lemma create_pdf_line_eq (pdf : Canvas.t) (y : Z) (line : string) :
  Pdf.create_pdf_line (pdf, y) line
  = if y - 20 <? 50 then
      (Canvas.setFont (Canvas.showPage (Canvas.drawString pdf 50 y line)) "Helvetica" 12,
       Pdf.height - 50)
    else (Canvas.drawString pdf 50 y line, y - 20).
Proof. reflexivity. Qed.

(** The loop of [create_pdf]: with [r] lines on the page being composed
    and [q] pages closed, the cursor is 20 [r] below the top line; after
    the loop has run over [lines], the counts have moved on by their
    number, a page holding 35 lines. *)
Lemma create_pdf_loop (lines : list string) :
  forall (pdf : Canvas.t) (y : Z) (q r : nat),
    (r < 35)%nat ->
    y = 742 - 20 * Z.of_nat r ->
    length (Canvas.pages pdf) = q ->
    Canvas.code pdf <> [] ->
    exists pdf' y' q' r',
      fold_left Pdf.create_pdf_line lines (pdf, y) = (pdf', y') /\
      (r' < 35)%nat /\
      y' = 742 - 20 * Z.of_nat r' /\
      length (Canvas.pages pdf') = q' /\
      Canvas.code pdf' <> [] /\
      (35 * q' + r' = 35 * q + r + length lines)%nat.
Proof.
  induction lines as [|line lines IH]; intros pdf y q r Hr Hy Hq Hcode.
  - exists pdf, y, q, r. simpl. repeat split; auto; lia.
  - cbn [fold_left]. rewrite create_pdf_line_eq.
    destruct (Z.ltb_spec (y - 20) 50) as [Hlow | Hhigh].
    + destruct (IH (Canvas.setFont (Canvas.showPage (Canvas.drawString pdf 50 y line))
                      "Helvetica" 12) (Pdf.height - 50) (S q) 0%nat)
        as (pdf' & y' & q' & r' & Hfold & Hr' & Hy' & Hq' & Hcode' & Hcount).
      * lia.
      * reflexivity.
      * simpl. rewrite length_app. simpl. lia.
      * simpl. discriminate.
      * exists pdf', y', q', r'. repeat split; auto. simpl length. lia.
    + destruct (IH (Canvas.drawString pdf 50 y line) (y - 20) q (S r))
        as (pdf' & y' & q' & r' & Hfold & Hr' & Hy' & Hq' & Hcode' & Hcount).
      * lia.
      * lia.
      * exact Hq.
      * simpl. intros Happ. apply app_eq_nil in Happ as [_ Hnil]. discriminate.
      * exists pdf', y', q', r'. repeat split; auto. simpl length. lia.
Qed.

(** The number of pages of the document: one more than the number of
    times 35 lines were filled. *)
Lemma create_pdf_page_count (text : string) :
  length (Pdf.create_pdf text)
  = S (length (split_on newline text) / 35).
Proof.
  unfold Pdf.create_pdf.
  destruct (create_pdf_loop (split_on newline text)
              (Canvas.setFont Canvas.Canvas "Helvetica" 12) (Pdf.height - 50) 0%nat 0%nat)
    as (pdf' & y' & q' & r' & Hfold & Hr' & Hy' & Hq' & Hcode' & Hcount);
    try reflexivity; try lia; [simpl; discriminate |].
  assert (Hdiv : q' = (length (split_on newline text) / 35)%nat)
    by (apply (Nat.div_unique _ 35 q' r'); lia).
  rewrite Hfold, <- Hdiv. unfold Canvas.save.
  destruct (Canvas.code pdf') eqn:Hc; [congruence |].
  cbn [Canvas.showPage Canvas.pages]. rewrite length_app, Hq'. simpl. lia.
Qed.

(** C7.  Sixty lines, none holding a line feed, joined by line feeds:
    the document has exactly two pages. *)
Theorem sixty_lines_two_pages (lines : list string) :
  length lines = 60%nat ->
  Forall (fun l => has_byte newline l = false) lines ->
  length (Pdf.create_pdf (join LF lines)) = 2%nat.
Proof.
  intros Hlen Hall.
  rewrite create_pdf_page_count, split_on_join, Hlen; auto.
  intros ->. discriminate.
Qed.

End PdfFacts.

(** ** Concrete runs *)

Section Runs.

Import Text.

Existing Instance AsciiText.

Example weather_three_days :
  fst (get_weather "Goa" (Sample.weather_world "Goa" Sample.geo_goa Sample.forecast_goa))
  = Ok "2026-11-03: 24.0°C - 32.1°C | 2026-11-04: 23.6°C - 31.8°C | 2026-11-05: 24.2°C - 32°C".
Proof. reflexivity. Qed.

Example weather_requests :
  map req_url
    (sent (snd (get_weather "Goa"
                  (Sample.weather_world "Goa" Sample.geo_goa Sample.forecast_goa))))
  = ["https://geocoding-api.open-meteo.com/v1/search?name=Goa&count=1";
     "https://api.open-meteo.com/v1/forecast?latitude=15.33333&longitude=74.08333&daily=temperature_2m_max,temperature_2m_min,weathercode&forecast_days=3&timezone=auto"].
Proof. reflexivity. Qed.

Example weather_network_down :
  fst (get_weather "Goa" (Sample.world_where (Raise (RequestError "Connection refused"))))
  = Ok "❌ Weather API error: Connection refused".
Proof. reflexivity. Qed.

Example weather_missing_field :
  fst (get_weather "Goa"
         (Sample.world_where (Ok (JDict [("results", JList [JDict [("name", JStr "Goa")]])]))))
  = Ok "❌ Weather API error: 'latitude'".
Proof. reflexivity. Qed.

(** An answer whose ["results"] is an empty list takes the error path. *)
Example weather_empty_results :
  fst (get_weather "Atlantis" (Sample.world_where (Ok (JDict [("results", JList [])]))))
  = Ok "❌ Weather API error: list index out of range".
Proof. reflexivity. Qed.

Example flights_found_three :
  fst (get_flight_options "Goa" (Some "k") (Sample.world_where (Ok Sample.flights_found)))
  = Ok ["✈️ DEL → GOI : ₹61.30"; "✈️ DEL → BOM : ₹75.02"; "✈️ DEL → GOI : ₹88.10"].
Proof. reflexivity. Qed.

Example flights_request_goa :
  sent (snd (get_flight_options "Goa" (Some "k") (Sample.world_where (Ok Sample.flights_found))))
  = [mkRequest "https://test.api.amadeus.com/v2/shopping/flight-offers"
       [("Authorization", "Bearer k")]
       [("originLocationCode", PStr "DEL");
        ("destinationLocationCode", PStr "GOI");
        ("departureDate", PStr "2026-11-10");
        ("adults", PInt 1);
        ("max", PInt 2)]].
Proof. reflexivity. Qed.

Example destination_codes :
  map destination_code ["goa"; "Goa"; "GOA"; "manali"; "Manali"; "North Goa"; ""]
  = ["GOI"; "GOI"; "GOI"; "KUU"; "KUU"; "KUU"; "KUU"].
Proof. reflexivity. Qed.

Example flights_last_week_of_9999 :
  get_flight_options "Goa" (Some "k")
    (mkWorld (fun _ _ => Ok Sample.flights_found) [] (Date.MAXORDINAL - 3))
  = (Ok ["❌ Flight API error: date value out of range"],
     mkWorld (fun _ _ => Ok Sample.flights_found) [] (Date.MAXORDINAL - 3)).
Proof. reflexivity. Qed.

Example seventy_lines_three_pages :
  map (@length Canvas.op) (Pdf.create_pdf (join LF (repeat "x"%string 70)))
  = [36%nat; 36%nat; 1%nat].
Proof. reflexivity. Qed.

Lemma weather_no_match_witness :
  exists s,
    fst (get_weather "Atlantis" (Sample.world_where (Ok Sample.geo_unknown))) = Ok s /\
    s = cat ["🌍 Weather info for "; "Atlantis"; " not found."] /\
    Substring "Atlantis" s.
Proof.
  apply (weather_no_match_names_destination "Atlantis"
           (Sample.world_where (Ok Sample.geo_unknown)) Sample.geo_unknown);
    reflexivity.
Defined.

Lemma flight_destination_code_witness :
  exists new,
    sent (snd (get_flight_options "Goa" (Some "k")
                 (Sample.world_where (Ok Sample.flights_found))))
    = [] ++ new /\
    (length new <= 1)%nat /\
    (1 <= Sample.a_day <= Date.MAXORDINAL - 7 -> length new = 1%nat) /\
    Forall (fun r => param "destinationLocationCode" r = Some (PStr "GOI")) new.
Proof.
  exact (flight_destination_code "Goa" (Some "k")
           (Sample.world_where (Ok Sample.flights_found)) eq_refl).
Defined.

Lemma flights_sentinel_or_error_witness :
  fst (get_flight_options "Manali" (Some "k")
         (Sample.world_where (Ok Sample.flights_refused)))
  = Ok ["No flights found."].
Proof.
  apply (proj1 (flights_sentinel_or_error "Manali" (Some "k")
                  (Sample.world_where (Ok Sample.flights_refused))
                  eq_refl ltac:(simpl; unfold Sample.a_day, Date.MAXORDINAL; lia))
           Sample.flights_refused);
    reflexivity.
Defined.

Lemma flights_one_quote_per_offer_witness :
  exists quotes,
    fst (get_flight_options "Goa" (Some "k")
           (Sample.world_where (Ok Sample.flights_found))) = Ok quotes /\
    length quotes = 3%nat /\
    Forall2 (fun f quote => flight_quote f = Ok quote) Sample.three_offers quotes /\
    param "max" (flight_request "Goa" (Some "k") "2026-11-10") = Some (PInt 2).
Proof.
  apply (flights_one_quote_per_offer "Goa" (Some "k")
           (Sample.world_where (Ok Sample.flights_found))
           Sample.flights_found Sample.three_offers).
  - reflexivity.
  - simpl; unfold Sample.a_day, Date.MAXORDINAL; lia.
  - reflexivity.
  - reflexivity.
  - repeat (constructor; [eexists; reflexivity |]). constructor.
Defined.

Lemma sixty_lines_two_pages_witness :
  length (Pdf.create_pdf (join LF (repeat "Day plan"%string 60))) = 2%nat.
Proof.
  apply (sixty_lines_two_pages (repeat "Day plan"%string 60)).
  - reflexivity.
  - apply Forall_forall. intros l Hl. apply repeat_spec in Hl. subst l. reflexivity.
Defined.

(** C3.  The code at the answer a search without result gets: the offer
    list is there and empty.  The answer holds no offers, yet the result of
    the call is the empty list: it has no element, so it is not the list
    holding "No flights found.", nor any list of one element. *)
Lemma flights_empty_data_returns_nothing :
  no_key (Some "k"%string) = false /\
  network (Sample.world_where (Ok Sample.flights_none)) []
    (flight_request "Goa" (Some "k"%string) "2026-11-10")
  = Ok Sample.flights_none /\
  Py.getitem Sample.flights_none "data" = Ok (JList []) /\
  fst (get_flight_options "Goa" (Some "k"%string)
         (Sample.world_where (Ok Sample.flights_none))) = Ok [] /\
  ~ (exists s,
       fst (get_flight_options "Goa" (Some "k"%string)
              (Sample.world_where (Ok Sample.flights_none))) = Ok [s]).
Proof.
  repeat split. intros (s & Hs). discriminate Hs.
Qed.

End Runs.

(** ** More about the tools *)

Section MoreToolFacts.
Context {T : PyText}.

Import Text.

Lemma collect_map_ok {A B} (f : A -> result B) (g : A -> B) (xs : list A) :
  (forall x, In x xs -> f x = Ok (g x)) -> collect f xs = Ok (map g xs).
Proof.
  induction xs as [|x xs IH]; intros Hf; simpl; [reflexivity |].
  rewrite (Hf x (or_introl eq_refl)), IH; [reflexivity |].
  intros y Hy. apply Hf. now right.
Qed.

(** When every element either succeeds or raises [e], and one raises, the
    whole collection raises [e]. *)
Lemma collect_raise {A B} (f : A -> result B) (e : exn) (xs : list A) :
  (forall x, In x xs -> (exists y, f x = Ok y) \/ f x = Raise e) ->
  (exists x, In x xs /\ f x = Raise e) ->
  collect f xs = Raise e.
Proof.
  induction xs as [|x xs IH]; intros Hall (bad & Hin & Hbad); [destruct Hin |].
  simpl. destruct (Hall x (or_introl eq_refl)) as [(y & Hy) | Hx].
  - rewrite Hy. rewrite IH; [reflexivity | |].
    + intros z Hz. apply Hall. now right.
    + destruct Hin as [-> | Hin]; [congruence |]. now exists bad.
  - now rewrite Hx.
Qed.

(** The first element that raises decides. *)
Lemma collect_first_raise {A B} (f : A -> result B) (e : exn)
  (good : list A) (bad : A) (rest : list A) :
  Forall (fun x => exists y, f x = Ok y) good ->
  f bad = Raise e ->
  collect f (good ++ bad :: rest) = Raise e.
Proof.
  intros Hgood Hbad. induction Hgood as [|x good (y & Hy) _ IH]; simpl.
  - now rewrite Hbad.
  - now rewrite Hy, IH.
Qed.

Lemma getitem_contains (v : json) (key : string) (x : json) :
  Py.getitem v key = Ok x -> Py.contains key v = Ok true.
Proof.
  destruct v; simpl; try discriminate.
  destruct (Py.lookup key items) as [y |] eqn:Hl; [| discriminate].
  intros _. now rewrite (lookup_existsb _ _ _ Hl).
Qed.

Lemma path_head_key (v : json) (key : string) (rest : list subscript) (x : json) :
  path v (K key :: rest) = Ok x ->
  exists y, Py.getitem v key = Ok y /\ path y rest = Ok x.
Proof.
  simpl. destruct (Py.getitem v key) as [y | e]; [| discriminate].
  intros H. now exists y.
Qed.

Lemma weather_day_view (weather_res : json) (i : nat) (temps : list string)
  (w : World) :
  weather_day weather_res i temps w
  = (match forecast_line weather_res i with
     | Ok line => Ok (temps ++ [line])
     | Raise e => Raise e
     end, w).
Proof.
  unfold weather_day, forecast_line, bind, lift, ret.
  destruct (path weather_res [K "daily"; K "time"; I i]); [| reflexivity].
  destruct (path weather_res [K "daily"; K "temperature_2m_max"; I i]); [| reflexivity].
  destruct (path weather_res [K "daily"; K "temperature_2m_min"; I i]); reflexivity.
Qed.

(** The loop over the forecast days leaves the world alone and appends one
    text per day, unless a day cannot be read. *)
Lemma for_each_weather_day (weather_res : json) (idxs : list nat)
  (acc : list string) (w : World) :
  for_each idxs (weather_day weather_res) acc w
  = (match collect (forecast_line weather_res) idxs with
     | Ok lines => Ok (acc ++ lines)
     | Raise e => Raise e
     end, w).
Proof.
  revert acc. induction idxs as [|i idxs IH]; intros acc; simpl.
  - unfold ret. now rewrite app_nil_r.
  - unfold bind. rewrite weather_day_view.
    destruct (forecast_line weather_res i) as [line | e]; [| reflexivity].
    rewrite IH. destruct (collect (forecast_line weather_res) idxs); [| reflexivity].
    now rewrite <- app_assoc.
Qed.

(** What [get_weather] returns once both requests were answered with
    documents of the expected outline. *)
Lemma get_weather_on_forecast (destination : string) (w : World)
  (geo lat lon forecast daily times : json) :
  network w (sent w) (geo_request destination) = Ok geo ->
  path geo [K "results"; I 0; K "latitude"] = Ok lat ->
  path geo [K "results"; I 0; K "longitude"] = Ok lon ->
  network w (sent w ++ [geo_request destination]) (weather_request lat lon) = Ok forecast ->
  Py.getitem forecast "daily" = Ok daily ->
  Py.getitem daily "time" = Ok times ->
  fst (get_weather destination w)
  = match Py.len times with
    | Raise e => Ok (weather_error e)
    | Ok n =>
        match collect (forecast_line forecast) (seq 0 n) with
        | Ok lines => Ok (join " | " lines)
        | Raise e => Ok (weather_error e)
        end
    end.
Proof.
  intros Hgeo Hlat Hlon Hfc Hdaily Htime.
  destruct (path_head_key _ _ _ _ Hlat) as (results & Hres & _).
  unfold get_weather, try_except, get_weather_try, bind, requests_get_json, lift,
    date_today, ret.
  rewrite Hgeo. cbn [sent network today].
  rewrite (getitem_contains _ _ _ Hres). cbn [negb].
  rewrite Hlat, Hlon. cbn [sent network today]. rewrite Hfc.
  cbn [path]. rewrite Hdaily, Htime.
  destruct (Py.len times) as [n | e]; [| reflexivity].
  rewrite for_each_weather_day.
  destruct (collect (forecast_line forecast) (seq 0 n)); reflexivity.
Qed.

Lemma nth_error_nth_default {A} (l : list A) (i : nat) (d : A) :
  (i < length l)%nat -> nth_error l i = Some (nth i l d).
Proof.
  revert i. induction l as [|x l IH]; intros [|i] H; simpl in *; try lia; auto.
  apply IH. lia.
Qed.

Lemma nth_error_beyond {A} (l : list A) (i : nat) :
  (length l <= i)%nat -> nth_error l i = None.
Proof. apply nth_error_None. Qed.

(** X1.  Both requests answered as expected, with lists of maxima and
    minima at least as long as the list of dates: the summary has one
    piece per date, in the order of the dates, the pieces joined by
    " | "; piece [i] reads "<date i>: <min i>°C - <max i>°C".  The number
    of days is that of the dates received; the code sets no limit. *)
Theorem weather_summary_of_forecast (destination : string) (w : World)
  (geo lat lon forecast daily : json) (times maxs mins : list json) :
  network w (sent w) (geo_request destination) = Ok geo ->
  path geo [K "results"; I 0; K "latitude"] = Ok lat ->
  path geo [K "results"; I 0; K "longitude"] = Ok lon ->
  network w (sent w ++ [geo_request destination]) (weather_request lat lon) = Ok forecast ->
  Py.getitem forecast "daily" = Ok daily ->
  Py.getitem daily "time" = Ok (JList times) ->
  Py.getitem daily "temperature_2m_max" = Ok (JList maxs) ->
  Py.getitem daily "temperature_2m_min" = Ok (JList mins) ->
  (length times <= length maxs)%nat ->
  (length times <= length mins)%nat ->
  fst (get_weather destination w)
  = Ok (join " | "
          (map (fun i => cat [Py.str (nth i times JNull); ": ";
                              Py.str (nth i mins JNull); "°C - ";
                              Py.str (nth i maxs JNull); "°C"])
               (seq 0 (length times)))).
Proof.
  intros Hgeo Hlat Hlon Hfc Hdaily Htime Hmax Hmin Hlmax Hlmin.
  rewrite (get_weather_on_forecast _ _ _ _ _ _ _ _ Hgeo Hlat Hlon Hfc Hdaily Htime).
  cbn [Py.len].
  rewrite (collect_map_ok _
             (fun i => cat [Py.str (nth i times JNull); ": ";
                            Py.str (nth i mins JNull); "°C - ";
                            Py.str (nth i maxs JNull); "°C"])); [reflexivity |].
  intros i Hi. apply in_seq in Hi.
  unfold forecast_line. cbn [path]. rewrite Hdaily, Htime, Hmax, Hmin.
  cbn [Py.getindex].
  rewrite (nth_error_nth_default times i JNull) by lia.
  rewrite (nth_error_nth_default maxs i JNull) by lia.
  rewrite (nth_error_nth_default mins i JNull) by lia.
  reflexivity.
Qed.

(** X2.  Both requests answered as expected, but the list of maxima or
    the list of minima is shorter than the list of dates: the result is
    the error text for "list index out of range".  The days that could be
    read are not reported. *)
Theorem weather_short_temperatures (destination : string) (w : World)
  (geo lat lon forecast daily : json) (times maxs mins : list json) :
  network w (sent w) (geo_request destination) = Ok geo ->
  path geo [K "results"; I 0; K "latitude"] = Ok lat ->
  path geo [K "results"; I 0; K "longitude"] = Ok lon ->
  network w (sent w ++ [geo_request destination]) (weather_request lat lon) = Ok forecast ->
  Py.getitem forecast "daily" = Ok daily ->
  Py.getitem daily "time" = Ok (JList times) ->
  Py.getitem daily "temperature_2m_max" = Ok (JList maxs) ->
  Py.getitem daily "temperature_2m_min" = Ok (JList mins) ->
  (length maxs < length times)%nat \/ (length mins < length times)%nat ->
  fst (get_weather destination w)
  = Ok (cat ["❌ Weather API error: "; "list index out of range"]).
Proof.
  intros Hgeo Hlat Hlon Hfc Hdaily Htime Hmax Hmin Hshort.
  rewrite (get_weather_on_forecast _ _ _ _ _ _ _ _ Hgeo Hlat Hlon Hfc Hdaily Htime).
  cbn [Py.len].
  assert (Hline : forall i, (i < length times)%nat ->
            forecast_line forecast i
            = if ((i <? length maxs)%nat && (i <? length mins)%nat)%bool
              then Ok (cat [Py.str (nth i times JNull); ": ";
                            Py.str (nth i mins JNull); "°C - ";
                            Py.str (nth i maxs JNull); "°C"])
              else Raise (IndexError "list index out of range")).
  { intros i Hi. unfold forecast_line. cbn [path]. rewrite Hdaily, Htime, Hmax, Hmin.
    cbn [Py.getindex].
    rewrite (nth_error_nth_default times i JNull) by lia.
    destruct (Nat.ltb_spec i (length maxs)) as [Ha | Ha].
    - rewrite (nth_error_nth_default maxs i JNull) by lia.
      destruct (Nat.ltb_spec i (length mins)) as [Hb | Hb].
      + rewrite (nth_error_nth_default mins i JNull) by lia. reflexivity.
      + rewrite (nth_error_beyond mins i) by lia. reflexivity.
    - rewrite (nth_error_beyond maxs i) by lia. reflexivity. }
  rewrite (collect_raise _ (IndexError "list index out of range")); [reflexivity | |].
  - intros i Hi. apply in_seq in Hi. rewrite Hline by lia.
    destruct ((i <? length maxs)%nat && (i <? length mins)%nat)%bool; eauto.
  - exists (Nat.min (length maxs) (length mins)). split.
    + apply in_seq. lia.
    + rewrite Hline by lia.
      destruct (Nat.ltb_spec (Nat.min (length maxs) (length mins)) (length maxs));
      destruct (Nat.ltb_spec (Nat.min (length maxs) (length mins)) (length mins));
      simpl; try reflexivity; lia.
Qed.

(** The world [get_weather] leaves: nothing changes but the log, which
    grows by the geocoding request and at most one forecast request. *)
Lemma get_weather_world (destination : string) (w : World) :
  exists rest,
    snd (get_weather destination w)
    = mkWorld (network w) (sent w ++ geo_request destination :: rest) (today w) /\
    (rest = [] \/
     exists geo lat lon,
       network w (sent w) (geo_request destination) = Ok geo /\
       path geo [K "results"; I 0; K "latitude"] = Ok lat /\
       path geo [K "results"; I 0; K "longitude"] = Ok lon /\
       rest = [weather_request lat lon]).
Proof.
  unfold get_weather, try_except, get_weather_try, bind, requests_get_json, lift,
    date_today, ret.
  destruct (network w (sent w) (geo_request destination)) as [geo | e] eqn:Hgeo;
    cbn [sent network today]; [| exists []; split; [reflexivity | now left]].
  destruct (Py.contains "results" geo) as [[|] | e];
    cbn [negb]; try (exists []; split; [reflexivity | now left]).
  destruct (path geo [K "results"; I 0; K "latitude"]) as [lat | e] eqn:Hlat;
    [| exists []; split; [reflexivity | now left]].
  destruct (path geo [K "results"; I 0; K "longitude"]) as [lon | e] eqn:Hlon;
    [| exists []; split; [reflexivity | now left]].
  exists [weather_request lat lon]. split.
  - cbn [sent network today]. rewrite <- app_assoc. cbn [app].
    destruct (network w _ (weather_request lat lon)) as [forecast | e];
      [| reflexivity].
    destruct (path forecast [K "daily"; K "time"]) as [times | e]; [| reflexivity].
    destruct (Py.len times) as [n | e]; [| reflexivity].
    rewrite for_each_weather_day.
    destruct (collect (forecast_line forecast) (seq 0 n)); reflexivity.
  - right. exists geo, lat, lon. auto.
Qed.

(** X3.  Whatever the world does, [get_weather] sends the geocoding
    request first and after it at most one request, the forecast request
    for the latitude and longitude of the first result; it sends the second
    only when the geocoding answer holds both.  Network and date are left as
    they were, and the log keeps what was in it. *)
Theorem weather_requests_sent (destination : string) (w : World) :
  exists rest,
    sent (snd (get_weather destination w))
    = sent w ++ geo_request destination :: rest /\
    network (snd (get_weather destination w)) = network w /\
    today (snd (get_weather destination w)) = today w /\
    (rest = [] \/
     exists geo lat lon,
       network w (sent w) (geo_request destination) = Ok geo /\
       path geo [K "results"; I 0; K "latitude"] = Ok lat /\
       path geo [K "results"; I 0; K "longitude"] = Ok lon /\
       rest = [weather_request lat lon]).
Proof.
  destruct (get_weather_world destination w) as (rest & Hw & Hrest).
  exists rest. rewrite Hw. auto.
Qed.

(** The result of a call made with a key, once the request was answered
    with a list of offers. *)
Lemma flights_on_offers (destination : string) (amadeus_api_key : option string)
  (w : World) (res : json) (offers : list json) :
  no_key amadeus_api_key = false ->
  1 <= today w <= Date.MAXORDINAL - 7 ->
  network w (sent w)
    (flight_request destination amadeus_api_key (Date.isoformat (today w + 7)))
  = Ok res ->
  Py.getitem res "data" = Ok (JList offers) ->
  fst (get_flight_options destination amadeus_api_key w)
  = match collect flight_quote offers with
    | Ok quotes => Ok quotes
    | Raise e => Ok [flight_error e]
    end.
Proof.
  intros Hkey Ht Hnet Hdata.
  unfold get_flight_options, try_except, get_flight_options_try.
  rewrite Hkey. unfold bind, date_today, lift, requests_get_json, ret.
  rewrite (add_days_in_range _ Ht). cbn [sent network today]. rewrite Hnet.
  rewrite (getitem_contains _ _ _ Hdata). cbn [negb]. rewrite Hdata.
  cbn [Py.iter]. rewrite for_each_flight_line.
  destruct (collect flight_quote offers); reflexivity.
Qed.

(** X4.  A call made with a key, answered with a list of offers of which
    one cannot be read (a field is missing or has the wrong shape): the
    result is the list holding just the error text of the first such
    offer.  The quotes of the offers before it are not returned. *)
Theorem flights_unreadable_offer (destination : string)
  (amadeus_api_key : option string) (w : World) (res : json)
  (good : list json) (bad : json) (rest : list json) (e : exn) :
  no_key amadeus_api_key = false ->
  1 <= today w <= Date.MAXORDINAL - 7 ->
  network w (sent w)
    (flight_request destination amadeus_api_key (Date.isoformat (today w + 7)))
  = Ok res ->
  Py.getitem res "data" = Ok (JList (good ++ bad :: rest)) ->
  Forall (fun f => exists quote, flight_quote f = Ok quote) good ->
  flight_quote bad = Raise e ->
  fst (get_flight_options destination amadeus_api_key w)
  = Ok [cat ["❌ Flight API error: "; exn_str e]].
Proof.
  intros Hkey Ht Hnet Hdata Hgood Hbad.
  rewrite (flights_on_offers _ _ _ _ _ Hkey Ht Hnet Hdata).
  now rewrite (collect_first_raise _ e good bad rest Hgood Hbad).
Qed.

(** X5.  A call made with key [k], on a day from which the date seven
    days on exists, sends exactly one request, whatever the answer turns
    out to be: to the flight-offers address, with the key in the
    [Authorization] header after "Bearer " and nowhere else, from DEL, for
    one adult, at most 2 offers, departing seven days after today. *)
Theorem flights_request_sent (destination k : string) (w : World) :
  k <> EmptyString ->
  1 <= today w <= Date.MAXORDINAL - 7 ->
  sent (snd (get_flight_options destination (Some k) w))
  = sent w ++
    [mkRequest "https://test.api.amadeus.com/v2/shopping/flight-offers"
       [("Authorization", ("Bearer " ++ k)%string)]
       [("originLocationCode", PStr "DEL");
        ("destinationLocationCode",
         PStr (if String.eqb (str_lower destination) "goa" then "GOI" else "KUU"));
        ("departureDate", PStr (Date.isoformat (today w + 7)));
        ("adults", PInt 1);
        ("max", PInt 2)]].
Proof.
  intros Hk Ht.
  assert (Hkey : no_key (Some k) = false) by (simpl; now apply String.eqb_neq).
  rewrite (flights_world _ _ _ Hkey), (add_days_in_range _ Ht). reflexivity.
Qed.

End MoreToolFacts.

(** ** More about the prompt *)

Section MorePromptFacts.

Import Text.

Lemma cat_cons (s : string) (parts : list string) :
  cat (s :: parts) = (s ++ cat parts)%string.
Proof.
  unfold cat. destruct parts as [|t parts]; simpl.
  - now rewrite append_empty_r.
  - reflexivity.
Qed.

(** X6.  With no interest chosen the user instruction reads "Traveler
    interests: general sightseeing."; with interests chosen it lists them
    joined by ", ", each interest as it is, and the stand-in phrase is not
    used. *)
Theorem prompt_interests (days : Z) (destination budget : string)
  (interests : list string) (weather_info : string) (flight_info : list string) :
  let h := Prompt.human_message
             (Prompt.prompt days destination budget interests weather_info flight_info) in
  match interests with
  | [] => Substring "Traveler interests: general sightseeing." h
  | _ =>
      Substring ("Traveler interests: " ++ join ", " interests ++ ".")%string h /\
      Forall (fun interest => Substring interest h) interests
  end.
Proof.
  intros h. subst h.
  unfold Prompt.prompt, Prompt.human_message, Prompt.human_text.
  assert (Hline : forall txt,
            Prompt.interests_text interests = txt ->
            Substring ("Traveler interests: " ++ txt ++ ".")%string
              (cat ["
Plan a "; decimal days; "-day trip to "; destination; ".
Budget: "; budget; ".
Traveler interests: "; Prompt.interests_text interests; ".

IMPORTANT:
1. First, clearly display the WEATHER DATA provided: "; weather_info; ".
2. Then, clearly display the FLIGHT OPTIONS provided: "; join ", " flight_info; ".
3. After that, suggest a day-by-day itinerary (activities, attractions, food, culture).
Make sure weather and flight info are visible in the final answer.
"])).
  { intros txt ->.
    exists (cat ["
Plan a "; decimal days; "-day trip to "; destination; ".
Budget: "; budget; ".
"]).
    exists (cat ["

IMPORTANT:
1. First, clearly display the WEATHER DATA provided: "; weather_info; ".
2. Then, clearly display the FLIGHT OPTIONS provided: "; join ", " flight_info; ".
3. After that, suggest a day-by-day itinerary (activities, attractions, food, culture).
Make sure weather and flight info are visible in the final answer.
"]).
    rewrite !cat_cons. unfold cat at 2 3. simpl String.concat.
    rewrite !append_assoc, ?append_empty_r. simpl. reflexivity. }
  destruct interests as [|i0 interests'] eqn:Hi.
  - apply (Hline "general sightseeing"%string). reflexivity.
  - split.
    + apply Hline. reflexivity.
    + apply Forall_forall. intros interest Hin.
      apply Substring_trans with (t := join ", " (i0 :: interests')).
      * apply Substring_join, Hin.
      * apply Substring_cat. in_parts.
Qed.

Lemma has_byte_append (c : ascii) (a b : string) :
  has_byte c (a ++ b) = (has_byte c a || has_byte c b)%bool.
Proof.
  induction a as [|x a IH]; simpl; [reflexivity |].
  now rewrite IH, orb_assoc.
Qed.

Lemma brace_free_append (a b : string) :
  Template.brace_free (a ++ b)
  = (Template.brace_free a && Template.brace_free b)%bool.
Proof.
  unfold Template.brace_free. rewrite !has_byte_append.
  destruct (has_byte "{" a), (has_byte "{" b), (has_byte "}" a), (has_byte "}" b);
    reflexivity.
Qed.

Lemma brace_free_concat (sep : string) (xs : list string) :
  Template.brace_free sep = true ->
  forallb Template.brace_free xs = true ->
  Template.brace_free (String.concat sep xs) = true.
Proof.
  intros Hsep. induction xs as [|x xs IH]; [reflexivity |].
  cbn [forallb]. intros H. apply andb_true_iff in H as [Hx Hxs].
  destruct xs as [|y xs]; [exact Hx |].
  rewrite concat_cons2, !brace_free_append, Hx, Hsep, (IH Hxs). reflexivity.
Qed.

Lemma brace_free_cons (c : ascii) (s : string) :
  Template.brace_free (String c s)
  = (negb (Template.is_brace c) && Template.brace_free s)%bool.
Proof.
  unfold Template.brace_free, Template.is_brace. simpl.
  destruct (Ascii.eqb c "{"), (Ascii.eqb c "}"), (has_byte "{" s), (has_byte "}" s);
    reflexivity.
Qed.

(** A text without braces is a template that stands for itself. *)
Lemma unescape_brace_free (s : string) :
  Template.brace_free s = true -> Template.unescape s = Some s.
Proof.
  induction s as [|c s IH]; [reflexivity |].
  rewrite brace_free_cons. intros H. apply andb_true_iff in H as [Hc Hs].
  apply negb_true_iff in Hc. simpl. rewrite Hc, (IH Hs). reflexivity.
Qed.

Lemma uint_brace_free (d : Decimal.uint) :
  Template.brace_free (NilEmpty.string_of_uint d) = true.
Proof.
  induction d; simpl NilEmpty.string_of_uint; [reflexivity | ..];
    rewrite brace_free_cons, IHd; reflexivity.
Qed.

Lemma decimal_brace_free (z : Z) : Template.brace_free (decimal z) = true.
Proof.
  unfold decimal, NilZero.string_of_int, NilZero.string_of_uint.
  destruct (Z.to_int z) as [d | d].
  - destruct d; try reflexivity; apply (uint_brace_free (_ d)).
  - rewrite brace_free_cons. simpl negb.
    destruct d; try reflexivity; apply (uint_brace_free (_ d)).
Qed.

Lemma human_text_brace_free (days : Z) (destination budget : string)
  (interests : list string) (weather_info : string) (flight_info : list string) :
  Template.brace_free destination = true ->
  Template.brace_free budget = true ->
  forallb Template.brace_free interests = true ->
  Template.brace_free weather_info = true ->
  forallb Template.brace_free flight_info = true ->
  Template.brace_free
    (Prompt.human_text days destination budget interests weather_info flight_info)
  = true.
Proof.
  intros Hd Hb Hi Hw Hf.
  assert (Hit : Template.brace_free (Prompt.interests_text interests) = true).
  { destruct interests as [|i0 interests']; [reflexivity |].
    apply brace_free_concat; [reflexivity | exact Hi]. }
  assert (Hfl : Template.brace_free (join ", " flight_info) = true)
    by (apply brace_free_concat; [reflexivity | exact Hf]).
  unfold Prompt.human_text, cat.
  apply brace_free_concat; [reflexivity |].
  cbn [forallb]. rewrite decimal_brace_free, Hd, Hb, Hit, Hw, Hfl. reflexivity.
Qed.

(** X7.  When no brace occurs in the destination, the budget, the
    interests, the weather text and the flight texts, LangChain accepts the
    two message texts and formats them unchanged: the messages handed to
    the model are the texts as assembled, so the user instruction that is
    sent holds the weather text and every flight text as they are. *)
Theorem prompt_sent_as_assembled {L : Template.LangChain} (days : Z)
  (destination budget : string) (interests : list string)
  (weather_info : string) (flight_info : list string) :
  Template.brace_free destination = true ->
  Template.brace_free budget = true ->
  forallb Template.brace_free interests = true ->
  Template.brace_free weather_info = true ->
  forallb Template.brace_free flight_info = true ->
  exists template sent,
    Template.from_messages
      (Prompt.prompt days destination budget interests weather_info flight_info)
    = Template.Accepted template /\
    Template.format_messages template = Template.Accepted sent /\
    sent = Prompt.prompt days destination budget interests weather_info flight_info /\
    Substring weather_info (Prompt.human_message sent) /\
    Forall (fun flight => Substring flight (Prompt.human_message sent)) flight_info.
Proof.
  intros Hd Hb Hi Hw Hf.
  pose proof (human_text_brace_free days _ _ _ _ _ Hd Hb Hi Hw Hf) as Hfree.
  exists (Template.Accepted
            (Prompt.prompt days destination budget interests weather_info flight_info)).
  exists (Prompt.prompt days destination budget interests weather_info flight_info).
  split; [| split; [reflexivity | split; [reflexivity |]]].
  - unfold Template.from_messages, Template.read.
    cbn [Prompt.prompt Prompt.system_message Prompt.human_message].
    rewrite (unescape_brace_free "You are a helpful AI travel planner." eq_refl).
    rewrite (unescape_brace_free _ Hfree). reflexivity.
  - apply (human_text_embeds_tool_data days destination budget interests
             weather_info flight_info).
Qed.

(** What Python's [in] finds is all there is to find. *)
Lemma starts_with_append (s post : string) : starts_with s (s ++ post) = true.
Proof.
  induction s as [|c s IH]; simpl; [reflexivity |].
  now rewrite Ascii.eqb_refl, IH.
Qed.

Lemma Substring_contains (s t : string) :
  Substring s t -> Text.contains s t = true.
Proof.
  intros (pre & post & ->). induction pre as [|c pre IH].
  - simpl append. destruct (s ++ post)%string eqn:E.
    + destruct s; [reflexivity | discriminate E].
    + cbn [Text.contains]. rewrite <- E, starts_with_append. reflexivity.
  - simpl append. cbn [Text.contains]. rewrite IH. apply orb_true_r.
Qed.

End MorePromptFacts.

(** ** More about the PDF export *)

Section MorePdfFacts.

Import Text.

Lemma create_pdf_eq (text : string) :
  Pdf.create_pdf text
  = Canvas.save
      (fst (fold_left Pdf.create_pdf_line (split_on newline text)
              (Canvas.setFont Canvas.Canvas "Helvetica" 12, Pdf.height - 50))).
Proof.
  unfold Pdf.create_pdf.
  destruct (fold_left Pdf.create_pdf_line (split_on newline text) _); reflexivity.
Qed.

Lemma texts_app (p q : Canvas.page) :
  Drawn.texts (p ++ q) = Drawn.texts p ++ Drawn.texts q.
Proof. apply flat_map_app. Qed.

Lemma save_texts (c : Canvas.t) :
  flat_map Drawn.texts (Canvas.save c) = flat_map Drawn.texts (Drawn.sheets c).
Proof.
  unfold Canvas.save, Drawn.sheets.
  destruct (Canvas.code c) eqn:Hc; [| simpl; now rewrite Hc].
  rewrite flat_map_app. simpl. now rewrite app_nil_r.
Qed.

(** One pass of the loop adds its line to what is drawn, after all that
    was drawn before, also when it closes the page. *)
Lemma create_pdf_line_texts (st : Canvas.t * Z) (line : string) :
  flat_map Drawn.texts (Drawn.sheets (fst (Pdf.create_pdf_line st line)))
  = flat_map Drawn.texts (Drawn.sheets (fst st)) ++ [line].
Proof.
  destruct st as [pdf y]. rewrite create_pdf_line_eq.
  destruct (y - 20 <? 50); unfold Drawn.sheets; simpl;
    rewrite !flat_map_app; simpl; rewrite !texts_app; simpl;
    rewrite ?app_nil_r, <- ?app_assoc; reflexivity.
Qed.

Lemma create_pdf_loop_texts (lines : list string) (st : Canvas.t * Z) :
  flat_map Drawn.texts (Drawn.sheets (fst (fold_left Pdf.create_pdf_line lines st)))
  = flat_map Drawn.texts (Drawn.sheets (fst st)) ++ lines.
Proof.
  revert st. induction lines as [|line lines IH]; intros st; simpl.
  - now rewrite app_nil_r.
  - rewrite IH, create_pdf_line_texts, <- app_assoc. reflexivity.
Qed.

Lemma create_pdf_keeps_every_line_aux (text : string) :
  flat_map Drawn.texts (Pdf.create_pdf text) = split_on newline text.
Proof.
  rewrite create_pdf_eq, save_texts, create_pdf_loop_texts. reflexivity.
Qed.

(** X8.  The texts drawn on the pages of the document, read page after
    page and top to bottom, are the lines of the input in their order:
    every line is drawn once, none is lost where a page ends, none is
    wrapped, cut or reordered. *)
Theorem create_pdf_keeps_every_line (text : string) :
  flat_map Drawn.texts (Pdf.create_pdf text) = split_on newline text.
Proof. apply create_pdf_keeps_every_line_aux. Qed.

Lemma filled_draw (r : nat) (code : Canvas.page) (y : Z) (line : string) :
  (r < 35)%nat ->
  y = 742 - 20 * Z.of_nat r ->
  Drawn.filled r code ->
  Drawn.filled (S r) (code ++ [Canvas.DrawString 50 y line]).
Proof.
  intros Hr Hy (Hlines & Hfont & Hgrid). repeat split.
  - unfold Drawn.lines_on in *. rewrite texts_app, length_app, Hlines. simpl. lia.
  - destruct code as [|o code]; [discriminate Hfont |]. exact Hfont.
  - rewrite forallb_app, Hgrid. cbn [forallb andb]. rewrite andb_true_r.
    unfold Drawn.on_grid. repeat (apply andb_true_iff; split).
    + reflexivity.
    + apply Z.leb_le; lia.
    + apply Z.leb_le; lia.
    + apply Z.eqb_eq. replace (742 - y) with (Z.of_nat r * 20) by lia.
      apply Z_mod_mult.
Qed.

(** The loop of [create_pdf] on pages: the closed pages hold 35 lines
    each, the page being composed holds [r] lines with the cursor 20 [r]
    below the top line; this is kept, and the counts move on by the number
    of lines. *)
Lemma create_pdf_loop_filled (lines : list string) :
  forall (pdf : Canvas.t) (y : Z) (r : nat),
    (r < 35)%nat ->
    y = 742 - 20 * Z.of_nat r ->
    Forall (Drawn.filled 35) (Canvas.pages pdf) ->
    Drawn.filled r (Canvas.code pdf) ->
    exists pdf' y' r',
      fold_left Pdf.create_pdf_line lines (pdf, y) = (pdf', y') /\
      (r' < 35)%nat /\
      Forall (Drawn.filled 35) (Canvas.pages pdf') /\
      Drawn.filled r' (Canvas.code pdf') /\
      (35 * length (Canvas.pages pdf') + r'
       = 35 * length (Canvas.pages pdf) + r + length lines)%nat.
Proof.
  induction lines as [|line lines IH]; intros pdf y r Hr Hy Hpages Hcode.
  - exists pdf, y, r. simpl. repeat split; auto; try apply Hcode; lia.
  - cbn [fold_left]. rewrite create_pdf_line_eq.
    pose proof (filled_draw r _ y line Hr Hy Hcode) as Hdrawn.
    destruct (Z.ltb_spec (y - 20) 50) as [Hlow | Hhigh].
    + assert (r = 34%nat) by lia. subst r.
      destruct (IH (Canvas.setFont (Canvas.showPage (Canvas.drawString pdf 50 y line))
                      "Helvetica" 12) (Pdf.height - 50) 0%nat)
        as (pdf' & y' & r' & Hfold & Hr' & Hpages' & Hcode' & Hcount).
      * lia.
      * reflexivity.
      * simpl. apply Forall_app. split; [exact Hpages |].
        constructor; [exact Hdrawn | constructor].
      * repeat split.
      * exists pdf', y', r'. repeat split; auto; try apply Hcode'.
        simpl in Hcount. rewrite length_app in Hcount. simpl in Hcount.
        simpl length. lia.
    + destruct (IH (Canvas.drawString pdf 50 y line) (y - 20) (S r))
        as (pdf' & y' & r' & Hfold & Hr' & Hpages' & Hcode' & Hcount).
      * lia.
      * lia.
      * exact Hpages.
      * exact Hdrawn.
      * exists pdf', y', r'. repeat split; auto; try apply Hcode'.
        simpl in Hcount. simpl length. lia.
Qed.

(** The document as closed pages and a last page. *)
Lemma create_pdf_pages (text : string) :
  exists full last r,
    Pdf.create_pdf text = full ++ [last] /\
    (r < 35)%nat /\
    Forall (Drawn.filled 35) full /\
    Drawn.filled r last /\
    (35 * length full + r = length (split_on newline text))%nat.
Proof.
  destruct (create_pdf_loop_filled (split_on newline text)
              (Canvas.setFont Canvas.Canvas "Helvetica" 12) (Pdf.height - 50) 0%nat)
    as (pdf' & y' & r' & Hfold & Hr' & Hpages' & Hcode' & Hcount).
  - lia.
  - reflexivity.
  - constructor.
  - repeat split.
  - exists (Canvas.pages pdf'), (Canvas.code pdf'), r'.
    rewrite create_pdf_eq, Hfold. simpl fst.
    split; [| split; [exact Hr' | split; [exact Hpages' | split; [exact Hcode' |]]]].
    + unfold Canvas.save. destruct (Canvas.code pdf') eqn:Hc.
      * destruct Hcode' as (_ & Hfont & _). discriminate Hfont.
      * simpl. now rewrite Hc.
    + simpl in Hcount. lia.
Qed.

(** X9.  With [n] lines in the input the document has n / 35 pages of 35
    lines each, followed by one last page with the n mod 35 lines that
    remain.  When n is a multiple of 35 the last page has no line on it:
    the page break comes right after the 35th line, before it is known
    whether a line follows. *)
Theorem create_pdf_page_filling (text : string) :
  exists full last,
    Pdf.create_pdf text = full ++ [last] /\
    length full = (length (split_on newline text) / 35)%nat /\
    Forall (fun p => Drawn.lines_on p = 35%nat) full /\
    Drawn.lines_on last = (length (split_on newline text) mod 35)%nat.
Proof.
  destruct (create_pdf_pages text) as (full & last & r & Heq & Hr & Hfull & Hlast & Hcount).
  exists full, last. split; [exact Heq |]. split; [| split].
  - apply (Nat.div_unique _ 35 _ r); lia.
  - eapply Forall_impl; [| exact Hfull]. intros p Hp. apply Hp.
  - destruct Hlast as (Hl & _). rewrite Hl.
    apply (Nat.mod_unique _ 35 (length full) r); lia.
Qed.

(** X10.  Every page of the document sets the font Helvetica 12 before
    anything is drawn on it and holds at most 35 lines; every line starts
    50 points from the left edge on one of the base lines 742, 722, ...,
    62, so nothing is drawn below the bottom margin of 50 points. *)
Theorem create_pdf_layout (text : string) :
  Forall (fun p =>
            Drawn.font_first p = true /\
            forallb Drawn.on_grid p = true /\
            (Drawn.lines_on p <= 35)%nat)
    (Pdf.create_pdf text).
Proof.
  destruct (create_pdf_pages text) as (full & last & r & Heq & Hr & Hfull & Hlast & _).
  rewrite Heq. apply Forall_app. split.
  - eapply Forall_impl; [| exact Hfull].
    intros p (Hl & Hf & Hg). repeat split; auto. lia.
  - constructor; [| constructor].
    destruct Hlast as (Hl & Hf & Hg). repeat split; auto. lia.
Qed.

End MorePdfFacts.

(** ** The application *)

Section AppFacts.
Context {T : PyText} {L : Template.LangChain}.
Variable llm : App.Model.

Import Text.

Lemma get_weather_returns (destination : string) (w : World) :
  exists s w', get_weather destination w = (Ok s, w').
Proof.
  unfold get_weather, try_except, ret.
  destruct (get_weather_try destination w) as [[s | e] w']; simpl; eauto.
Qed.

Lemma get_flight_options_returns (destination : string)
  (amadeus_api_key : option string) (w : World) :
  exists l w', get_flight_options destination amadeus_api_key w = (Ok l, w').
Proof.
  unfold get_flight_options, try_except, ret.
  destruct (get_flight_options_try destination amadeus_api_key w) as [[l | e] w'];
    simpl; eauto.
Qed.

(** The branch with a key, once the tools have returned: the cases by
    what the library makes of the text of the human message. *)
Lemma plan_eq (i : App.Inputs) (w w1 w2 : World) (weather : string)
  (flights : list string) :
  get_weather (App.destination i) w = (Ok weather, w1) ->
  get_flight_options (App.destination i) (Some (App.amadeus_api_key i)) w1
  = (Ok flights, w2) ->
  App.plan llm i w
  = let human := Prompt.human_text (App.days i) (App.destination i) (App.budget i)
                   (App.interests i) weather flights in
    let model := "llama-3.1-8b-instant"%string in
    match Template.unescape human with
    | Some text =>
        let messages := Prompt.mkPrompt "You are a helpful AI travel planner." text in
        match App.chat_groq llm model (App.groq_api_key i) with
        | Raise e => (EmptyString, [App.StError (App.error_text e)], w2)
        | Ok _ =>
            match App.invoke llm model (App.groq_api_key i) messages with
            | Raise e =>
                (EmptyString,
                 [App.AskModel model (App.groq_api_key i) messages;
                  App.StError (App.error_text e)], w2)
            | Ok content =>
                (content,
                 [App.AskModel model (App.groq_api_key i) messages;
                  App.StSubheader "🗺️ Suggested Itinerary"; App.StWrite content], w2)
            end
        end
    | None =>
        match Template.rejection human with
        | (Template.AtFromMessages, msg) =>
            (EmptyString, [App.StError (cat ["❌ Error: "; msg])], w2)
        | (Template.AtFormatMessages, msg) =>
            match App.chat_groq llm model (App.groq_api_key i) with
            | Raise e => (EmptyString, [App.StError (App.error_text e)], w2)
            | Ok _ => (EmptyString, [App.StError (cat ["❌ Error: "; msg])], w2)
            end
        end
    end.
Proof.
  intros Hw Hf. unfold App.plan. rewrite Hw, Hf.
  unfold Template.from_messages, Template.read, Template.format_messages.
  cbn [Prompt.prompt Prompt.system_message Prompt.human_message].
  rewrite (unescape_brace_free "You are a helpful AI travel planner." eq_refl).
  cbv zeta.
  destruct (Template.unescape (Prompt.human_text _ _ _ _ _ _)) as [text |].
  - destruct (App.chat_groq llm _ _); reflexivity.
  - destruct (Template.rejection _) as [[|] msg]; [reflexivity |].
    destruct (App.chat_groq llm _ _); reflexivity.
Qed.

Lemma run_with_key (i : App.Inputs) (w : World) :
  App.clicked i = true ->
  App.groq_api_key i <> EmptyString ->
  App.run llm i w
  = let '(itinerary_text, shown, w') := App.plan llm i w in
    if String.eqb itinerary_text "" then (shown, w')
    else
      (shown ++
       [App.StDownloadButton "📥 Download Itinerary as PDF"
          (Pdf.create_pdf itinerary_text)
          (cat [App.destination i; "_itinerary.pdf"]) "application/pdf"],
       w').
Proof.
  intros Hc Hk. unfold App.run. rewrite Hc.
  now rewrite (proj2 (String.eqb_neq _ _) Hk).
Qed.

Lemma run_idle (i : App.Inputs) (w : World) :
  App.clicked i = false \/ App.groq_api_key i = EmptyString ->
  App.run llm i w
  = (if App.clicked i
     then [App.StError "❌ Please enter your Groq API key in the sidebar."]
     else [],
     w).
Proof.
  intros [Hc | Hk]; unfold App.run.
  - now rewrite Hc.
  - rewrite Hk. destruct (App.clicked i); reflexivity.
Qed.

(** X11.  Without a click on the button nothing happens at all; with a
    click but no Groq key the one thing that happens is the message asking
    for the key.  In both cases no request is sent, the model is not asked,
    and no document is offered. *)
Theorem run_without_click_or_key (i : App.Inputs) (w : World) :
  App.clicked i = false \/ App.groq_api_key i = EmptyString ->
  App.run llm i w
  = (if App.clicked i
     then [App.StError "❌ Please enter your Groq API key in the sidebar."]
     else [],
     w).
Proof. apply run_idle. Qed.

(** X12.  With a click and a Groq key the model is asked at most once.
    It is asked exactly when every brace in the text assembled for the
    human message is doubled and the client could be built, and then with
    the fixed system message and with that text, one brace written for each
    doubled one.  The text is assembled from the inputs and from the texts
    the two tools returned, their error texts when they failed: a failing
    tool does not end the run. *)
Theorem run_asks_model_at_most_once (i : App.Inputs) (w : World) :
  App.clicked i = true ->
  App.groq_api_key i <> EmptyString ->
  exists weather flights,
    fst (get_weather (App.destination i) w) = Ok weather /\
    fst (get_flight_options (App.destination i) (Some (App.amadeus_api_key i))
           (snd (get_weather (App.destination i) w))) = Ok flights /\
    App.asked (fst (App.run llm i w))
    = match Template.unescape
              (Prompt.human_text (App.days i) (App.destination i) (App.budget i)
                 (App.interests i) weather flights),
            App.chat_groq llm "llama-3.1-8b-instant" (App.groq_api_key i) with
      | Some text, Ok _ =>
          [Prompt.mkPrompt "You are a helpful AI travel planner." text]
      | _, _ => []
      end.
Proof.
  intros Hc Hk.
  destruct (get_weather_returns (App.destination i) w) as (weather & w1 & Hw).
  destruct (get_flight_options_returns (App.destination i)
              (Some (App.amadeus_api_key i)) w1) as (flights & w2 & Hf).
  exists weather, flights.
  rewrite (run_with_key i w Hc Hk), (plan_eq i w _ _ _ _ Hw Hf), Hw. cbn [fst snd].
  rewrite Hf. cbv zeta.
  split; [reflexivity |]. split; [reflexivity |].
  destruct (Template.unescape (Prompt.human_text _ _ _ _ _ _)) as [text |].
  - destruct (App.chat_groq llm _ _) as [u | e]; [| reflexivity].
    destruct (App.invoke llm _ _ _) as [content | e]; [| reflexivity].
    destruct (String.eqb content ""); reflexivity.
  - destruct (Template.rejection _) as [[|] msg]; [reflexivity |].
    destruct (App.chat_groq llm _ _); reflexivity.
Qed.

(** X13.  With a click and a Groq key the run ends in one of two ways.
    Either the model is not asked, and the run shows one message
    "❌ Error: ..." and nothing else.  Or the model is asked once, with
    messages [m]: when the call raises [e], the run shows
    "❌ Error: <str(e)>" and neither itinerary nor download; when the model
    answers, the run shows the heading and the answer as it is, and offers
    the download exactly when the answer is not the empty text, the file
    named "<destination>_itinerary.pdf". *)
Theorem run_shows_model_outcome (i : App.Inputs) (w : World) :
  App.clicked i = true ->
  App.groq_api_key i <> EmptyString ->
  (App.asked (fst (App.run llm i w)) = [] /\
   exists msg, fst (App.run llm i w) = [App.StError (cat ["❌ Error: "; msg])]) \/
  (exists m,
     App.asked (fst (App.run llm i w)) = [m] /\
     match App.invoke llm "llama-3.1-8b-instant" (App.groq_api_key i) m with
     | Raise e =>
         fst (App.run llm i w)
         = [App.AskModel "llama-3.1-8b-instant" (App.groq_api_key i) m;
            App.StError (cat ["❌ Error: "; exn_str e])]
     | Ok content =>
         fst (App.run llm i w)
         = [App.AskModel "llama-3.1-8b-instant" (App.groq_api_key i) m;
            App.StSubheader "🗺️ Suggested Itinerary";
            App.StWrite content]
           ++ (if String.eqb content "" then []
               else [App.StDownloadButton "📥 Download Itinerary as PDF"
                       (Pdf.create_pdf content)
                       (cat [App.destination i; "_itinerary.pdf"])
                       "application/pdf"])
     end).
Proof.
  intros Hc Hk.
  destruct (get_weather_returns (App.destination i) w) as (weather & w1 & Hw).
  destruct (get_flight_options_returns (App.destination i)
              (Some (App.amadeus_api_key i)) w1) as (flights & w2 & Hf).
  rewrite (run_with_key i w Hc Hk), (plan_eq i w _ _ _ _ Hw Hf). cbv zeta.
  destruct (Template.unescape (Prompt.human_text _ _ _ _ _ _)) as [text |].
  - destruct (App.chat_groq llm _ _) as [u | e].
    + right. exists (Prompt.mkPrompt "You are a helpful AI travel planner." text).
      destruct (App.invoke llm _ _ _) as [content | e].
      * destruct (String.eqb content "") eqn:He; simpl; rewrite ?app_nil_r;
          split; reflexivity.
      * split; reflexivity.
    + left. split; [reflexivity |]. now exists (exn_str e).
  - left. destruct (Template.rejection _) as [[|] msg].
    + split; [reflexivity |]. now exists msg.
    + destruct (App.chat_groq llm _ _) as [u | e]; (split; [reflexivity |]).
      * now exists msg.
      * now exists (exn_str e).
Qed.

(** X14.  Whatever a run offers for download is the document made from
    a text that is not empty and that the same run has shown on the page;
    the lines drawn in the document are the lines of that text, in order.
    The file is named after the destination. *)
Theorem run_offers_what_it_shows (i : App.Inputs) (w : World)
  (label : string) (doc : list Canvas.page) (file_name mime : string) :
  In (App.StDownloadButton label doc file_name mime) (fst (App.run llm i w)) ->
  exists content,
    content <> EmptyString /\
    In (App.StWrite content) (fst (App.run llm i w)) /\
    doc = Pdf.create_pdf content /\
    flat_map Drawn.texts doc = split_on newline content /\
    file_name = (App.destination i ++ "_itinerary.pdf")%string /\
    mime = "application/pdf"%string.
Proof.
  destruct (App.clicked i) eqn:Hc.
  2:{ rewrite (run_idle i w (or_introl Hc)), Hc. intros []. }
  destruct (String.eqb_spec (App.groq_api_key i) "") as [Hk | Hk].
  { rewrite (run_idle i w (or_intror Hk)), Hc.
    intros [H | []]. discriminate H. }
  destruct (get_weather_returns (App.destination i) w) as (weather & w1 & Hw).
  destruct (get_flight_options_returns (App.destination i)
              (Some (App.amadeus_api_key i)) w1) as (flights & w2 & Hf).
  rewrite (run_with_key i w Hc Hk), (plan_eq i w _ _ _ _ Hw Hf). cbv zeta.
  assert (Hnone : forall (a : App.action) (P : Prop),
            In (App.StDownloadButton label doc file_name mime) [a] ->
            (forall l d f m, a <> App.StDownloadButton l d f m) -> P).
  { intros a P [H | []] Hne. subst a. now destruct (Hne label doc file_name mime). }
  destruct (Template.unescape (Prompt.human_text _ _ _ _ _ _)) as [text |].
  - destruct (App.chat_groq llm _ _) as [u | e].
    + destruct (App.invoke llm _ _ _) as [content | e].
      * destruct (String.eqb_spec content "") as [He | He]; simpl.
        -- intros [H | [H | [H | []]]]; discriminate H.
        -- intros [H | [H | [H | [H | []]]]]; try discriminate H.
           inversion H; subst. exists content.
           split; [exact He |]. split; [simpl; auto |]. split; [reflexivity |].
           split; [apply create_pdf_keeps_every_line_aux |].
           split; reflexivity.
      * simpl. intros [H | [H | []]]; discriminate H.
    + simpl. intros H. apply (Hnone _ _ H). discriminate.
  - destruct (Template.rejection _) as [[|] msg].
    + simpl. intros H. apply (Hnone _ _ H). discriminate.
    + destruct (App.chat_groq llm _ _) as [u | e]; simpl; intros H;
        apply (Hnone _ _ H); discriminate.
Qed.

(** The world a run with a key leaves is the one the two tools leave. *)
Lemma run_world (i : App.Inputs) (w : World) :
  App.clicked i = true ->
  App.groq_api_key i <> EmptyString ->
  snd (App.run llm i w)
  = snd (get_flight_options (App.destination i) (Some (App.amadeus_api_key i))
           (snd (get_weather (App.destination i) w))).
Proof.
  intros Hc Hk.
  destruct (get_weather_returns (App.destination i) w) as (weather & w1 & Hw).
  destruct (get_flight_options_returns (App.destination i)
              (Some (App.amadeus_api_key i)) w1) as (flights & w2 & Hf).
  rewrite (run_with_key i w Hc Hk), (plan_eq i w _ _ _ _ Hw Hf), Hw. cbn [fst snd].
  rewrite Hf. cbv zeta.
  destruct (Template.unescape (Prompt.human_text _ _ _ _ _ _)) as [text |].
  - destruct (App.chat_groq llm _ _) as [u | e]; [| reflexivity].
    destruct (App.invoke llm _ _ _) as [content | e]; [| reflexivity].
    destruct (String.eqb content ""); reflexivity.
  - destruct (Template.rejection _) as [[|] msg]; [reflexivity |].
    destruct (App.chat_groq llm _ _); reflexivity.
Qed.

(** X15.  A run with a click and a Groq key sends at most three requests,
    in this order: the geocoding request, then at most one forecast
    request, then at most one flight request, which carries the Amadeus key
    after "Bearer " and is not sent at all when that key is empty.  What
    was in the log stays; network and date are left as they were; what the
    model does has no part in it. *)
Theorem run_requests_in_order (i : App.Inputs) (w : World) :
  App.clicked i = true ->
  App.groq_api_key i <> EmptyString ->
  exists rest flights,
    snd (App.run llm i w)
    = mkWorld (network w)
        (sent w ++ geo_request (App.destination i) :: rest ++ flights)
        (today w) /\
    (length rest <= 1)%nat /\
    Forall (fun r => exists lat lon, r = weather_request lat lon) rest /\
    (length flights <= 1)%nat /\
    Forall (fun r =>
              req_url r = "https://test.api.amadeus.com/v2/shopping/flight-offers"%string /\
              req_headers r
              = [("Authorization"%string, ("Bearer " ++ App.amadeus_api_key i)%string)])
      flights /\
    (App.amadeus_api_key i = EmptyString -> flights = []).
Proof.
  intros Hc Hk. rewrite (run_world i w Hc Hk).
  destruct (get_weather_world (App.destination i) w) as (rest & Hw & Hrest).
  rewrite Hw. exists rest.
  assert (Hlen : (length rest <= 1)%nat /\
                 Forall (fun r => exists lat lon, r = weather_request lat lon) rest).
  { destruct Hrest as [-> | (geo & lat & lon & _ & _ & _ & ->)].
    - split; [simpl; lia | constructor].
    - split; [simpl; lia |]. constructor; [eauto | constructor]. }
  destruct Hlen as (Hlen & Hshape).
  destruct (String.eqb_spec (App.amadeus_api_key i) "") as [Ha | Ha].
  - exists []. rewrite Ha. cbn [get_flight_options]. rewrite app_nil_r.
    split; [reflexivity |]. split; [exact Hlen |]. split; [exact Hshape |].
    split; [simpl; lia |]. split; [constructor | reflexivity].
  - assert (Hkey : no_key (Some (App.amadeus_api_key i)) = false)
      by (simpl; now apply String.eqb_neq).
    rewrite (flights_world _ _ _ Hkey). cbn [today sent network].
    destruct (Date.add_days (today w) 7) as [d | e].
    + eexists [_]. split; [rewrite <- app_assoc; cbn [app]; reflexivity |].
      split; [exact Hlen |]. split; [exact Hshape |]. split; [simpl; lia |].
      split; [constructor; [split; reflexivity | constructor] |].
      intros H. contradiction.
    + exists []. rewrite app_nil_r.
      split; [reflexivity |]. split; [exact Hlen |]. split; [exact Hshape |].
      split; [simpl; lia |]. split; [constructor | reflexivity].
Qed.

End AppFacts.

(** ** More concrete runs *)

Section MoreRuns.

Import Text.

Existing Instance AsciiText.
Existing Instance Demo.strict.

Lemma weather_summary_of_forecast_witness :
  fst (get_weather "Goa" (Sample.weather_world "Goa" Sample.geo_goa Sample.forecast_goa))
  = Ok "2026-11-03: 24.0°C - 32.1°C | 2026-11-04: 23.6°C - 31.8°C | 2026-11-05: 24.2°C - 32°C".
Proof.
  apply (weather_summary_of_forecast "Goa"
           (Sample.weather_world "Goa" Sample.geo_goa Sample.forecast_goa)
           Sample.geo_goa (JFloat "15.33333") (JFloat "74.08333") Sample.forecast_goa
           (JDict [("time", JList [JStr "2026-11-03"; JStr "2026-11-04"; JStr "2026-11-05"]);
                   ("temperature_2m_max", JList [JFloat "32.1"; JFloat "31.8"; JInt 32]);
                   ("temperature_2m_min", JList [JFloat "24.0"; JFloat "23.6"; JFloat "24.2"]);
                   ("weathercode", JList [JInt 1; JInt 3; JInt 61])])
           [JStr "2026-11-03"; JStr "2026-11-04"; JStr "2026-11-05"]
           [JFloat "32.1"; JFloat "31.8"; JInt 32]
           [JFloat "24.0"; JFloat "23.6"; JFloat "24.2"]);
    try reflexivity; simpl; lia.
Defined.

Lemma weather_short_temperatures_witness :
  fst (get_weather "Goa" (Sample.weather_world "Goa" Sample.geo_goa Demo.forecast_short))
  = Ok "❌ Weather API error: list index out of range".
Proof.
  apply (weather_short_temperatures "Goa"
           (Sample.weather_world "Goa" Sample.geo_goa Demo.forecast_short)
           Sample.geo_goa (JFloat "15.33333") (JFloat "74.08333") Demo.forecast_short
           (JDict [("time", JList [JStr "2026-11-03"; JStr "2026-11-04"]);
                   ("temperature_2m_max", JList [JFloat "32.1"]);
                   ("temperature_2m_min", JList [JFloat "24.0"; JFloat "23.6"])])
           [JStr "2026-11-03"; JStr "2026-11-04"]
           [JFloat "32.1"]
           [JFloat "24.0"; JFloat "23.6"]);
    try reflexivity. left. simpl. lia.
Defined.

Lemma flights_unreadable_offer_witness :
  fst (get_flight_options "Goa" (Some "k")
         (Sample.world_where (Ok (JDict [("data", JList Demo.offers_broken)]))))
  = Ok ["❌ Flight API error: 'price'"].
Proof.
  apply (flights_unreadable_offer "Goa" (Some "k")
           (Sample.world_where (Ok (JDict [("data", JList Demo.offers_broken)])))
           (JDict [("data", JList Demo.offers_broken)])
           [Sample.offer "DEL" "GOI" "61.30"]
           (JDict [("itineraries", JList [])]) [] (KeyError "'price'")).
  - reflexivity.
  - simpl; unfold Sample.a_day, Date.MAXORDINAL; lia.
  - reflexivity.
  - reflexivity.
  - constructor; [eexists; reflexivity | constructor].
  - reflexivity.
Defined.

Lemma flights_request_sent_witness :
  sent (snd (get_flight_options "Manali" (Some "k")
               (Sample.world_where (Raise (RequestError "timed out")))))
  = [mkRequest "https://test.api.amadeus.com/v2/shopping/flight-offers"
       [("Authorization", "Bearer k")]
       [("originLocationCode", PStr "DEL");
        ("destinationLocationCode", PStr "KUU");
        ("departureDate", PStr "2026-11-10");
        ("adults", PInt 1);
        ("max", PInt 2)]].
Proof.
  exact (flights_request_sent "Manali" "k"
           (Sample.world_where (Raise (RequestError "timed out")))
           ltac:(discriminate)
           ltac:(simpl; unfold Sample.a_day, Date.MAXORDINAL; lia)).
Defined.

Lemma run_without_click_or_key_witness :
  App.run (Demo.model_says "Day 1") (Demo.inputs "" "k")
    (Sample.world_where (Ok Sample.flights_found))
  = ([App.StError "❌ Please enter your Groq API key in the sidebar."],
     Sample.world_where (Ok Sample.flights_found)).
Proof.
  exact (run_without_click_or_key (Demo.model_says "Day 1") (Demo.inputs "" "k")
           (Sample.world_where (Ok Sample.flights_found)) (or_intror eq_refl)).
Defined.

Lemma run_asks_model_at_most_once_witness :
  exists weather flights,
    fst (get_weather "Goa" (Sample.world_where (Raise (RequestError "no route to host"))))
    = Ok weather /\
    fst (get_flight_options "Goa" (Some "")
           (snd (get_weather "Goa"
                   (Sample.world_where (Raise (RequestError "no route to host"))))))
    = Ok flights /\
    App.asked
      (fst (App.run (Demo.model_says "Day 1") (Demo.inputs "gsk" "")
              (Sample.world_where (Raise (RequestError "no route to host")))))
    = match Template.unescape
              (Prompt.human_text 2 "Goa" "Medium" ["Nature"; "Adventure"] weather flights),
            App.chat_groq (Demo.model_says "Day 1") "llama-3.1-8b-instant" "gsk" with
      | Some text, Ok _ =>
          [Prompt.mkPrompt "You are a helpful AI travel planner." text]
      | _, _ => []
      end.
Proof.
  exact (run_asks_model_at_most_once (Demo.model_says "Day 1") (Demo.inputs "gsk" "")
           (Sample.world_where (Raise (RequestError "no route to host")))
           eq_refl ltac:(discriminate)).
Defined.

Lemma run_shows_model_outcome_witness :
  (App.asked (fst (App.run (Demo.model_fails "quota exceeded") (Demo.inputs "gsk" "")
                     (Sample.world_where (Ok Sample.geo_unknown)))) = [] /\
   exists msg,
     fst (App.run (Demo.model_fails "quota exceeded") (Demo.inputs "gsk" "")
            (Sample.world_where (Ok Sample.geo_unknown)))
     = [App.StError (cat ["❌ Error: "; msg])]) \/
  (exists m,
     App.asked (fst (App.run (Demo.model_fails "quota exceeded") (Demo.inputs "gsk" "")
                       (Sample.world_where (Ok Sample.geo_unknown)))) = [m] /\
     fst (App.run (Demo.model_fails "quota exceeded") (Demo.inputs "gsk" "")
            (Sample.world_where (Ok Sample.geo_unknown)))
     = [App.AskModel "llama-3.1-8b-instant" "gsk" m;
        App.StError "❌ Error: quota exceeded"]).
Proof.
  exact (run_shows_model_outcome (Demo.model_fails "quota exceeded")
           (Demo.inputs "gsk" "") (Sample.world_where (Ok Sample.geo_unknown))
           eq_refl ltac:(discriminate)).
Defined.

Lemma prompt_sent_as_assembled_witness :
  exists template sent,
    Template.from_messages
      (Prompt.prompt 2 "Goa" "Medium" ["Nature"; "Adventure"]
         "2026-11-03: 24.0°C - 32.1°C" ["✈️ DEL → GOI : ₹61.30"])
    = Template.Accepted template /\
    Template.format_messages template = Template.Accepted sent /\
    sent = Prompt.prompt 2 "Goa" "Medium" ["Nature"; "Adventure"]
             "2026-11-03: 24.0°C - 32.1°C" ["✈️ DEL → GOI : ₹61.30"] /\
    Substring "2026-11-03: 24.0°C - 32.1°C" (Prompt.human_message sent) /\
    Forall (fun flight => Substring flight (Prompt.human_message sent))
      ["✈️ DEL → GOI : ₹61.30"].
Proof.
  apply (prompt_sent_as_assembled 2 "Goa" "Medium" ["Nature"; "Adventure"]
           "2026-11-03: 24.0°C - 32.1°C" ["✈️ DEL → GOI : ₹61.30"]);
    reflexivity.
Defined.

(** C6.  The code at a destination written with doubled braces, for which
    the geocoding service knows no place.  The weather text names the
    destination as it was given, with its doubled braces; the user
    instruction handed to the model has one brace for each doubled one, so
    it holds the weather text with single braces and does not hold the
    weather text as it is.  At a destination with a brace that stands alone
    nothing is handed to the model at all, and nothing is offered. *)
Lemma prompt_sent_differs_on_braces :
  fst (get_weather "{{Goa}}" (Sample.world_where (Ok Sample.geo_unknown)))
  = Ok "🌍 Weather info for {{Goa}} not found." /\
  (exists sent,
     App.asked (fst (App.run (Demo.model_says "Day 1") (Demo.trip "{{Goa}}")
                       (Sample.world_where (Ok Sample.geo_unknown)))) = [sent] /\
     Text.contains "🌍 Weather info for {Goa} not found." (Prompt.human_message sent)
     = true /\
     ~ Substring "🌍 Weather info for {{Goa}} not found." (Prompt.human_message sent)) /\
  App.asked (fst (App.run (Demo.model_says "Day 1") (Demo.trip "Goa {")
                    (Sample.world_where (Ok Sample.geo_unknown)))) = [] /\
  App.offered (fst (App.run (Demo.model_says "Day 1") (Demo.trip "Goa {")
                      (Sample.world_where (Ok Sample.geo_unknown)))) = [].
Proof.
  split; [reflexivity |]. split; [| split; reflexivity].
  eexists. split; [reflexivity |]. split; [reflexivity |].
  intros H. apply Substring_contains in H. vm_compute in H. discriminate H.
Qed.

Lemma run_offers_what_it_shows_witness :
  exists content,
    content <> EmptyString /\
    In (App.StWrite content)
      (fst (App.run (Demo.model_says "Day 1: beach") (Demo.inputs "gsk" "")
              (Sample.world_where (Ok Sample.geo_unknown)))) /\
    Pdf.create_pdf "Day 1: beach" = Pdf.create_pdf content /\
    flat_map Drawn.texts (Pdf.create_pdf "Day 1: beach") = split_on newline content /\
    "Goa_itinerary.pdf"%string = ("Goa" ++ "_itinerary.pdf")%string /\
    "application/pdf"%string = "application/pdf"%string.
Proof.
  apply (run_offers_what_it_shows (Demo.model_says "Day 1: beach")
           (Demo.inputs "gsk" "") (Sample.world_where (Ok Sample.geo_unknown))
           "📥 Download Itinerary as PDF" (Pdf.create_pdf "Day 1: beach")
           "Goa_itinerary.pdf" "application/pdf").
  simpl. auto.
Defined.

Lemma run_requests_in_order_witness :
  exists rest flights,
    snd (App.run (Demo.model_says "Day 1") (Demo.inputs "gsk" "k")
           (Sample.weather_world "Goa" Sample.geo_goa Sample.forecast_goa))
    = mkWorld (network (Sample.weather_world "Goa" Sample.geo_goa Sample.forecast_goa))
        ([] ++ geo_request "Goa" :: rest ++ flights) Sample.a_day /\
    (length rest <= 1)%nat /\
    Forall (fun r => exists lat lon, r = weather_request lat lon) rest /\
    (length flights <= 1)%nat /\
    Forall (fun r =>
              req_url r = "https://test.api.amadeus.com/v2/shopping/flight-offers"%string /\
              req_headers r = [("Authorization"%string, "Bearer k"%string)])
      flights /\
    ("k"%string = EmptyString -> flights = []).
Proof.
  exact (run_requests_in_order (Demo.model_says "Day 1") (Demo.inputs "gsk" "k")
           (Sample.weather_world "Goa" Sample.geo_goa Sample.forecast_goa)
           eq_refl ltac:(discriminate)).
Defined.

Example run_full :
  map (fun a => match a with
                | App.AskModel m _ _ => m
                | App.StError e => e
                | App.StSubheader t => t
                | App.StWrite t => t
                | App.StDownloadButton _ d f _ =>
                    cat [f; ": "; join "," (flat_map Drawn.texts d)]
                end)
    (fst (App.run (Demo.model_says (cat ["Day 1: beach"; LF; "Day 2: fort"]))
            (Demo.inputs "gsk" "")
            (Sample.weather_world "Goa" Sample.geo_goa Sample.forecast_goa)))
  = ["llama-3.1-8b-instant"; "🗺️ Suggested Itinerary";
     cat ["Day 1: beach"; LF; "Day 2: fort"];
     "Goa_itinerary.pdf: Day 1: beach,Day 2: fort"].
Proof. reflexivity. Qed.

End MoreRuns.
